(** * The PyMKS overview notebooks: corpus, lexical analysis and run model

    The repository is a set of Jupyter notebooks.  Each notebook document is
    embedded below as data, cell by cell and line by line, exactly as its
    JSON gives it.  The properties of the corpus are then decided by a small
    Python lexer, an import/call/def-use analysis of the code cells and a
    run model of a notebook session, all executable. *)

From Stdlib Require Import String Ascii List Bool Arith Lia Permutation.
Import ListNotations.
Open Scope string_scope.
Open Scope list_scope.
Open Scope nat_scope.

(** ** Data model *)

(** A cell of a notebook document.  For a code cell [code src], [src] is the
    JSON array "source" (nbformat 4) or "input" (nbformat 3): one string per
    physical line, without the terminating newline.  The analyses read code
    cells only, so a markdown cell keeps its place in the cell order and the
    number of lines of its prose. *)
Inductive cell : Type :=
| markdown (n_lines : nat)
| code (source : list string).

(** The notebook-level fields the analyses read: "nbformat",
    "metadata.kernelspec.name", "metadata.kernelspec.display_name" and
    "metadata.language_info.version" (absent in an nbformat 3 document). *)
Record notebook : Type := {
  nbformat : nat;
  kernelspec_name : option string;
  kernelspec_display_name : option string;
  language_version : option string;
  cells : list cell
}.

(** A file of the corpus holds one or more notebook documents. *)
Record source_file : Type := {
  path : string;
  documents : list notebook
}.

(** The double quote character, for source lines that contain it. *)
Definition dq : string := String (ascii_of_nat 34) EmptyString.

(** ** The corpus *)

(** The cells of the first document of
    [src/notebooks/elasticity_2D.ipynb]. *)
Definition elasticity_2D_cells : list cell :=
  [
  markdown 8;
  markdown 40;
  markdown 9;
  code [
    "%matplotlib inline";
    "%load_ext autoreload";
    "%autoreload 2";
    EmptyString;
    "import numpy as np";
    "import matplotlib.pyplot as plt" ];
  code [
    "n = 21";
    EmptyString;
    "from pymks.tools import draw_microstructures";
    "from pymks.datasets import make_delta_microstructures";
    EmptyString;
    "X_delta = make_delta_microstructures(n_phases=2, size=(n, n))";
    "draw_microstructures(X_delta)" ];
  markdown 1;
  markdown 5;
  code [
    "from pymks.datasets import make_elastic_FE_strain_delta";
    EmptyString;
    "elastic_modulus = (100, 120)";
    "poissons_ratio = (0.3, 0.3)";
    "macro_strain = 0.02";
    "size = (n, n)";
    EmptyString;
    "= make_elastic_FE_strain_delta(elastic_modulus=elastic_modulus,";
    "                                                poissons_ratio=poissons_ratio,";
    "                                                size=size, macro_strain=macro_strain)" ];
  markdown 1;
  code [
    "from pymks.tools import draw_microstructure_strain";
    EmptyString;
    "draw_microstructure_strain(,)" ];
  markdown 5;
  code [
    "from pymks import MKSLocalizationModel";
    "from pymks import PrimitiveBasis";
    EmptyString;
    "= PrimitiveBasis(n_states=2, domain=[0, 1])";
    "model = MKSLocalizationModel(basis=)" ];
  markdown 1;
  code [
    "model.fit()" ];
  markdown 1;
  code [
    "from pymks.tools import draw_coeff";
    EmptyString;
    "draw_coeff()" ];
  markdown 1;
  markdown 5;
  code [
    "from pymks.datasets import make_elastic_FE_strain_random";
    EmptyString;
    "np.random.seed(99)";
    EmptyString;
    "= make_elastic_FE_strain_random(n_samples=1, elastic_modulus=elastic_modulus,";
    "                                          poissons_ratio=poissons_ratio, size=size,";
    "                                          macro_strain=macro_strain)";
    EmptyString;
    "draw_microstructure_strain()" ];
  markdown 3;
  code [
    "strain_predict = model.predict()" ];
  markdown 1;
  code [
    "from pymks.tools import draw_strains_compare";
    EmptyString;
    "draw_strains_compare(, )" ];
  markdown 1;
  code [
    "from pymks.tools import draw_differences";
    EmptyString;
    ("draw_differences([], [" ++ dq ++ "FE - MKS" ++ dq ++ "])")%string ];
  markdown 1;
  markdown 3;
  code [
    "m = 3 * n";
    "size = (m, m)";
    "print size";
    EmptyString;
    "= make_elastic_FE_strain_random(n_samples=1, elastic_modulus=elastic_modulus,";
    "                                          poissons_ratio=poissons_ratio, size=size,";
    "                                          macro_strain=macro_strain)";
    "draw_microstructure_strain()" ];
  markdown 1;
  code [
    "model.resize_coeff()" ];
  markdown 1;
  code [
    "draw_coeff()" ];
  markdown 1;
  code [
    "strain_predict = model.predict(X)";
    EmptyString;
    "draw_strains_compare(strain[0], strain_predict[0])" ];
  markdown 1;
  code [];
  markdown 1;
  code [
    ("draw_differences([], [" ++ dq ++ "FE - MKS, Big" ++ dq ++ "])")%string ];
  markdown 1;
  markdown 13 ].

(** The first document of
    [src/notebooks/elasticity_2D.ipynb]:
    'Linear Elasticity in 2D'. *)
Definition elasticity_2D : notebook :=
  {| nbformat := 4;
     kernelspec_name := Some "python2";
     kernelspec_display_name := Some "Python 2";
     language_version := Some "2.7.9";
     cells := elasticity_2D_cells |}.

(** The cells of the second document of
    [src/notebooks/elasticity_2D.ipynb]. *)
Definition elasticity_2D_3phase_cells : list cell :=
  [
  markdown 7;
  markdown 5;
  markdown 9;
  code [
    "%matplotlib inline";
    "%load_ext autoreload";
    "%autoreload 2";
    EmptyString;
    "import numpy as np";
    "import matplotlib.pyplot as plt" ];
  code [
    "from pymks.datasets import make_delta_microstructures";
    "n = 21";
    "n_phases = 3";
    EmptyString ];
  markdown 1;
  code [
    "from pymks.tools import draw_microstructures";
    EmptyString ];
  markdown 1;
  markdown 5;
  code [
    "from pymks.datasets import make_elastic_FE_strain_delta";
    EmptyString;
    "elastic_modulus = (80, 100, 120)";
    "poissons_ratio = (0.3, 0.3, 0.3)";
    "macro_strain = 0.02";
    "size = (n, n)";
    EmptyString;
    "= make_elastic_FE_strain_delta(elastic_modulus=elastic_modulus,";
    "                                                      poissons_ratio=poissons_ratio,";
    "                                                      size=size, macro_strain=macro_strain)" ];
  markdown 1;
  code [
    "from pymks.tools import draw_microstructure_strain" ];
  markdown 1;
  markdown 5;
  code [
    "from pymks import MKSLocalizationModel";
    "from pymks import PrimitiveBasis" ];
  markdown 1;
  code [];
  markdown 1;
  code [
    "from pymks.tools import draw_coeff" ];
  markdown 1;
  markdown 5;
  code [
    "from pymks.datasets import make_elastic_FE_strain_random";
    EmptyString;
    "np.random.seed(101)" ];
  markdown 3;
  code [];
  markdown 1;
  code [];
  markdown 1;
  code [
    "from pymks.tools import draw_strains_compare";
    EmptyString ];
  markdown 1;
  code [
    "from pymks.tools import draw_differences" ];
  markdown 1;
  markdown 3;
  code [
    "m = 3 * n ";
    "size = (m, m)";
    "print size";
    EmptyString;
    "= make_elastic_FE_strain_random(n_samples=1, elastic_modulus=elastic_modulus,";
    "                                          poissons_ratio=poissons_ratio, size=size,";
    "                                          macro_strain=macro_strain)" ];
  markdown 1;
  code [];
  markdown 1;
  code [];
  markdown 1;
  code [
    EmptyString;
    EmptyString ];
  markdown 1;
  code [];
  markdown 1;
  code [];
  markdown 1;
  markdown 13 ].

(** The second document of
    [src/notebooks/elasticity_2D.ipynb]:
    'Linear Elasticity in 2D' for 3 Phases. *)
Definition elasticity_2D_3phase : notebook :=
  {| nbformat := 4;
     kernelspec_name := Some "python2";
     kernelspec_display_name := Some "Python 2";
     language_version := Some "2.7.10";
     cells := elasticity_2D_3phase_cells |}.

(** The cells of the document of
    [src/notebooks/checker_board.ipynb]. *)
Definition checker_board_cells : list cell :=
  [
  markdown 7;
  markdown 29;
  code [
    "%matplotlib inline";
    "%load_ext autoreload";
    "%autoreload 2";
    EmptyString;
    "import numpy as np";
    "import matplotlib.pyplot as plt" ];
  markdown 5;
  code [
    "from pymks.datasets import make_checkerboard_microstructure";
    EmptyString;
    " = make_checkerboard_microstructure(square_size=, n_squares=)" ];
  markdown 1;
  code [
    "from pymks.tools import draw_microstructures";
    EmptyString;
    "draw_microstructures()";
    EmptyString;
    "print .shape" ];
  markdown 5;
  code [
    "from pymks.stats import autocorrelate";
    "from pymks import PrimitiveBasis";
    EmptyString;
    " = PrimitiveBasis(n_states=)";
    " = .discretize()";
    " = autocorrelate(, periodic_axes=(0, 1))" ];
  markdown 3;
  code [
    "from pymks.tools import draw_autocorrelations";
    EmptyString;
    "correlations = [('black', 'black'), ('white', 'white')]";
    "draw_autocorrelations([0], autocorrelations=correlations)" ];
  markdown 5;
  code [
    "center = (.shape[1] + 1) / 2";
    "print 'Volume fraction of black phase', [0, center, center, 0]";
    "print 'Volume fraction of white phase', [0, center, center, 1]" ];
  markdown 1;
  code [
    "from pymks.stats import crosscorrelate";
    EmptyString;
    " = crosscorrelate(, periodic_axes=(0, 1))" ];
  markdown 1;
  code [
    "from pymks.tools import draw_crosscorrelations";
    EmptyString;
    "correlations = [('black', 'white')]";
    "draw_crosscorrelations([0], crosscorrelations=correlations)" ];
  markdown 3;
  code [
    "print 'Center value', [0, center, center, 0]" ];
  markdown 9 ].

(** The document of
    [src/notebooks/checker_board.ipynb]. *)
Definition checker_board : notebook :=
  {| nbformat := 4;
     kernelspec_name := Some "python2";
     kernelspec_display_name := Some "Python 2";
     language_version := Some "2.7.9";
     cells := checker_board_cells |}.

(** The cells of the document of
    [src/notebooks/cahn_hilliard.ipynb]. *)
Definition cahn_hilliard_cells : list cell :=
  [
  markdown 3;
  markdown 7;
  code [
    "%matplotlib inline";
    "%load_ext autoreload";
    "%autoreload 2";
    EmptyString;
    "import numpy as np";
    "import matplotlib.pyplot as plt" ];
  markdown 15;
  code [
    "import pymks";
    "from pymks.datasets import make_cahn_hilliard";
    EmptyString;
    "n = 41";
    "n_samples = 400";
    "dt = 1e-2";
    "np.random.seed(99)";
    "= make_cahn_hilliard(n_samples=n_samples, size=(n, n), dt=dt)" ];
  markdown 1;
  code [
    "from pymks.tools import draw_concentrations";
    EmptyString;
    "draw_concentrations((, ), labels=('Input', 'Out'))" ];
  markdown 7;
  code [
    "import sklearn";
    "from sklearn.cross_validation import train_test_split";
    EmptyString;
    "split_shape = (X.shape[0],) + (np.product(X.shape[1:]),)";
    "= train_test_split(X.reshape(split_shape), y.reshape(split_shape),";
    "                                                    test_size=0.5, random_state=3)" ];
  markdown 3;
  code [
    "from pymks import MKSLocalizationModel";
    "from pymks.bases import PrimitiveBasis" ];
  markdown 1;
  code [
    "from sklearn.grid_search import GridSearchCV";
    EmptyString;
    "parameters_to_tune = {'n_states': np.arange(2, 11)}";
    "prim_basis = PrimitiveBasis(2, [-1, 1])";
    "model = MKSLocalizationModel(prim_basis)";
    "gs = GridSearchCV(model, parameters_to_tune, cv=5, fit_params={'size': (n, n)})";
    "gs.fit(, )" ];
  code [
    "print(gs.best_estimator_)";
    "print(gs.score(, ))" ];
  code [
    "from pymks.tools import draw_gridscores";
    EmptyString;
    "draw_gridscores(gs.grid_scores_, 'n_states',";
    "                score_label='R-squared', param_label='L - Number of states')" ];
  markdown 3;
  code [
    "model = MKSLocalizationModel(basis=PrimitiveBasis(6, [-1, 1]))";
    "model.fit(,)" ];
  markdown 1;
  code [
    "from pymks.tools import draw_coeff";
    EmptyString;
    "draw_coeff()" ];
  markdown 3;
  code [
    "from pymks.datasets.cahn_hilliard_simulation import CahnHilliardSimulation";
    "np.random.seed(191)";
    EmptyString;
    "phi0 = np.random.normal(0, 1e-9, (1, n, n))";
    "ch_sim = CahnHilliardSimulation(dt=dt)";
    "phi_sim = phi0.copy()";
    "phi_pred = phi0.copy()" ];
  markdown 1;
  code [
    "time_steps = 10";
    EmptyString;
    "for ii in range(time_steps):";
    "    ch_sim.run(phi_sim)";
    "    phi_sim = ch_sim.response";
    "    phi_pred = model.predict(phi_pred)" ];
  markdown 1;
  code [
    "from pymks.tools import draw_concentrations_compare";
    EmptyString;
    "draw_concentrations_compare((phi_sim[0], phi_pred[0]), ";
    "                            labels=('Simulation', 'MKS'))" ];
  markdown 5;
  code [
    "m = 3 * n";
    EmptyString;
    "phi0 = np.random.normal(0, 1e-9, (1, m, m))";
    "phi_sim = phi0.copy()";
    "phi_pred = phi0.copy()" ];
  markdown 1;
  code [
    "for ii in range(1000):";
    "    ch_sim.run(phi_sim)";
    "    phi_sim = ch_sim.response";
    "    phi_pred = model.predict(phi_pred)" ];
  markdown 1;
  code [
    "from pymks.tools import draw_concentrations_compare" ];
  markdown 1 ].

(** The document of
    [src/notebooks/cahn_hilliard.ipynb]. *)
Definition cahn_hilliard : notebook :=
  {| nbformat := 4;
     kernelspec_name := Some "python2";
     kernelspec_display_name := Some "Python 2";
     language_version := Some "2.7.9";
     cells := cahn_hilliard_cells |}.

(** The cells of the document of
    [src/notebooks/.ipynb_checkpoints/python_intro-checkpoint.ipynb]. *)
Definition python_intro_cells : list cell :=
  [
  markdown 5;
  code [];
  markdown 1;
  code [
    "log10(10)" ];
  markdown 7;
  code [
    "import math";
    EmptyString;
    "math.log10(10)" ];
  markdown 5;
  code [
    "? math.log10" ];
  markdown 3;
  code [
    "my_name = " ];
  code [
    "intro = 'Hello, my name is '";
    EmptyString;
    "print(intro + my_name + '.')" ];
  markdown 1;
  code [
    "first_initial = 'My first initial is '";
    "print(first_initial + my_name[0] + '.')" ];
  markdown 1;
  code [
    "initials = 'My initials are '";
    EmptyString;
    ("print(initials + my_name[0] + my_name[] + " ++ dq ++ "." ++ dq ++ ")")%string ];
  markdown 7;
  code [
    "import numpy as np";
    EmptyString;
    "B = np.ones((3, 3))";
    "print(B)" ];
  markdown 1;
  code [];
  markdown 5;
  code [
    "? np.dot" ];
  code [
    "N = ";
    "A = np.eye(N) * 2";
    "x = np.arange(N)";
    EmptyString;
    "print('A =')";
    "print(A)";
    "print('x =')";
    "print(x)";
    EmptyString;
    "print('y =')";
    "print(y)" ];
  markdown 1;
  code [];
  markdown 7;
  code [
    "%matplotlib inline";
    EmptyString;
    "# Code source: Jaques Grobler";
    "# License: BSD 3 clause";
    EmptyString;
    EmptyString;
    "import matplotlib.pyplot as plt";
    "from sklearn import datasets, linear_model";
    EmptyString;
    "# Load the diabetes dataset";
    "diabetes = datasets.load_diabetes()";
    EmptyString;
    EmptyString;
    "# Use only one feature";
    "diabetes_X = diabetes.data[:, np.newaxis]";
    "diabetes_X_temp = diabetes_X[:, :, 2]";
    EmptyString;
    "# Split the data into training/testing sets";
    "diabetes_X_train = diabetes_X_temp[:-20]";
    "diabetes_X_test = diabetes_X_temp[-20:]";
    EmptyString;
    "# Split the targets into training/testing sets";
    "diabetes_y_train = diabetes.target[:-20]";
    "diabetes_y_test = diabetes.target[-20:]";
    EmptyString;
    "# Create linear regression object";
    "regr = linear_model.LinearRegression()";
    EmptyString;
    "# Train the model using the training sets";
    "# regr.fit(diabetes_X_train, diabetes_y_train)";
    EmptyString;
    "# Predict result";
    "# y = regr.predict(diabetes_X_test)";
    EmptyString;
    "# The coefficients";
    "print('Coefficients: \n', regr.coef_)";
    "# The mean square error";
    ("print(" ++ dq ++ "Residual sum of squares: %.2f" ++ dq)%string;
    "      % np.mean((y - diabetes_y_test) ** 2))";
    "# Explained variance score: 1 is perfect prediction";
    "print('Variance score: %.2f' % regr.score(diabetes_X_test, diabetes_y_test))";
    EmptyString;
    "# Plot outputs";
    "plt.scatter(diabetes_X_test, diabetes_y_test,  color='black')";
    "plt.plot(diabetes_X_test, y, color='blue', linewidth=3)";
    EmptyString;
    "plt.xticks(())";
    "plt.yticks(())";
    EmptyString;
    "plt.show()" ];
  code [] ].

(** The document of
    [src/notebooks/.ipynb_checkpoints/python_intro-checkpoint.ipynb]. *)
Definition python_intro : notebook :=
  {| nbformat := 4;
     kernelspec_name := Some "python2";
     kernelspec_display_name := Some "Python 2";
     language_version := Some "2.7.9";
     cells := python_intro_cells |}.

(** The cells of the document of
    [src/unnamed/part_000]. *)
Definition part_000_cells : list cell :=
  [
  code [
    "%matplotlib inline";
    "%load_ext autoreload";
    "%autoreload 2";
    EmptyString;
    "import numpy as np";
    "import matplotlib.pyplot as plt" ];
  code [
    "from pymks.datasets import make_elastic_stress_random";
    "sample_size = 200";
    "grain_size = [(15, 2), (2, 15), (7, 7), (8, 3), (3, 9), (2, 2)]";
    "n_samples = [sample_size] * 6";
    "elastic_modulus = (410, 200)";
    "poissons_ratio = (0.28, 0.3)";
    "macro_strain = 0.001";
    "size = (21, 21)";
    EmptyString;
    "X, y = " ];
  code [
    "from pymks.tools import draw_microstructures";
    "X_examples = X[::sample_size]" ];
  code [];
  code [
    "from pymks import MKSHomogenizationModel";
    "from pymks import PrimitiveBasis";
    EmptyString;
    "prim_basis = ";
    "model = " ];
  code [
    "model.n_components = 40";
    "model.fit" ];
  code [
    "from pymks.tools import draw_component_variance";
    EmptyString ];
  code [
    "from sklearn.cross_validation import train_test_split";
    EmptyString;
    "flat_shape = (X.shape[0],) + (np.prod(X.shape[1:]),)";
    EmptyString;
    EmptyString ];
  code [
    "from sklearn.grid_search import GridSearchCV";
    EmptyString;
    "params_to_tune = {'degree': np.arange(1, 4), 'n_components': np.arange(1, 8)}";
    "fit_params = {'size': X[0].shape, 'periodic_axes': [0, 1]}";
    "gs = " ];
  code [
    "from pymks.tools import draw_gridscores_matrix";
    EmptyString;
    "draw_gridscores_matrix" ];
  code [
    "print('Order of Polynomial'), (gs.best_estimator_.degree)";
    "print('Number of Components'), (gs.best_estimator_.n_components)";
    "print('R-squared Value'), (gs.score(X_test, y_test))" ];
  code [
    "from pymks.tools import draw_gridscores";
    EmptyString;
    "gs_deg_1 = [x for x in gs.grid_scores_ \";
    "            if x.parameters['degree'] == 1][2:-1]";
    "gs_deg_2 = [x for x in gs.grid_scores_ \";
    "            if x.parameters['degree'] == 2][2:-1]";
    "gs_deg_3 = [x for x in gs.grid_scores_ \";
    "            if x.parameters['degree'] == 3][2:-1]";
    EmptyString;
    "draw_gridscores([gs_deg_1,  gs_deg_2, gs_deg_3], 'n_components',";
    "                data_labels=['1st Order', '2nd Order', '3rd Order'],";
    "                colors=['#f46d43', '#1a9641', '#762a83'],";
    "                param_label='Number of Components', score_label='R-Squared')" ];
  code [
    "model = gs.best_estimator_";
    "model.fit(X, y, periodic_axes=[0, 1])" ];
  code [
    "test_sample_size = 20";
    "n_samples = [test_sample_size] * 6";
    "X_new, y_new = " ];
  code [
    "y_predict = " ];
  code [
    "from pymks.tools import draw_components";
    EmptyString;
    "draw_components([model.reduced_fit_data[:, :2],";
    "                 model.reduced_predict_data[:, :2]],";
    "                ['Training Data', 'Testing Data'])" ];
  code [
    "from sklearn.metrics import r2_score";
    "print('R-squared'), (model.score(X_new, y_new, periodic_axes=[0, 1]))" ];
  code [
    "# Goodness of fit graph";
    EmptyString;
    "from pymks.tools import draw_goodness_of_fit";
    EmptyString;
    "fit_data = ";
    "pred_data = ";
    "draw_goodness_of_fit(fit_data, pred_data, ['Training Data', 'Testing Data'])" ] ].

(** The document of
    [src/unnamed/part_000]. *)
Definition part_000 : notebook :=
  {| nbformat := 3;
     kernelspec_name := None;
     kernelspec_display_name := None;
     language_version := None;
     cells := part_000_cells |}.

(** [src/notebooks/elasticity_2D.ipynb] holds two documents: the two-phase
    notebook and, from line 503 on, the three-phase one. *)
Definition elasticity_2D_file : source_file :=
  {| path := "src/notebooks/elasticity_2D.ipynb";
     documents := [elasticity_2D; elasticity_2D_3phase] |}.

Definition checker_board_file : source_file :=
  {| path := "src/notebooks/checker_board.ipynb";
     documents := [checker_board] |}.

Definition cahn_hilliard_file : source_file :=
  {| path := "src/notebooks/cahn_hilliard.ipynb";
     documents := [cahn_hilliard] |}.

Definition python_intro_file : source_file :=
  {| path := "src/notebooks/.ipynb_checkpoints/python_intro-checkpoint.ipynb";
     documents := [python_intro] |}.

Definition part_000_file : source_file :=
  {| path := "src/unnamed/part_000";
     documents := [part_000] |}.

Definition corpus : list source_file :=
  [elasticity_2D_file; checker_board_file; cahn_hilliard_file;
   python_intro_file; part_000_file].

Definition all_notebooks : list notebook := flat_map documents corpus.

(** ** A lexer for the Python of the code cells *)

Inductive token : Type :=
| NAME (s : string)      (* identifier or keyword *)
| NUMBER (s : string)
| STR (s : string)       (* body of a string literal *)
| OP (s : string).       (* operator or delimiter *)

Definition mem (x : string) (l : list string) : bool :=
  existsb (String.eqb x) l.

Definition code_of (c : ascii) : nat := nat_of_ascii c.

Definition is_digit (c : ascii) : bool :=
  (48 <=? code_of c) && (code_of c <=? 57).

Definition is_letter (c : ascii) : bool :=
  ((65 <=? code_of c) && (code_of c <=? 90))
  || ((97 <=? code_of c) && (code_of c <=? 122))
  || (code_of c =? 95).

Definition is_space (c : ascii) : bool :=
  (code_of c =? 32) || (code_of c =? 9).

Definition is_quote (c : ascii) : bool :=
  (code_of c =? 39) || (code_of c =? 34).

Definition snoc (buf : string) (c : ascii) : string :=
  String.append buf (String c EmptyString).

Fixpoint last_char (s : string) : option ascii :=
  match s with
  | EmptyString => None
  | String c EmptyString => Some c
  | String _ r => last_char r
  end.

Definition two_char_ops : list string :=
  ["=="; "!="; "<>"; "<="; ">="; "**"; "//"; "+="; "-="; "*="; "/="; "<<";
   ">>"; "->"].

Inductive lex_state : Type :=
| Idle
| InName (buf : string)
| InNumber (buf : string)
| InStr (q : ascii) (buf : string)
| InEsc (q : ascii) (buf : string)
| InOp (buf : string).

(** Tokens completed when the state is left. *)
Definition flush (st : lex_state) : list token :=
  match st with
  | Idle => []
  | InName b => [NAME b]
  | InNumber b => [NUMBER b]
  | InStr _ b | InEsc _ b => [STR b]
  | InOp b => [OP b]
  end.

(** The state a character opens; [None] is a comment, which ends the line. *)
Definition fresh (c : ascii) : option lex_state :=
  if is_space c then Some Idle
  else if code_of c =? 35 then None
  else if is_quote c then Some (InStr c EmptyString)
  else if is_letter c then Some (InName (String c EmptyString))
  else if is_digit c then Some (InNumber (String c EmptyString))
  else Some (InOp (String c EmptyString)).

Definition exponent_sign (buf : string) (c : ascii) : bool :=
  ((code_of c =? 43) || (code_of c =? 45))
  && match last_char buf with
     | Some e => (code_of e =? 101) || (code_of e =? 69)
     | None => false
     end.

Definition step (st : lex_state) (c : ascii) : list token * option lex_state :=
  match st with
  | InStr q b =>
      if Ascii.eqb c q then ([STR b], Some Idle)
      else if code_of c =? 92 then ([], Some (InEsc q (snoc b c)))
      else ([], Some (InStr q (snoc b c)))
  | InEsc q b => ([], Some (InStr q (snoc b c)))
  | InName b =>
      if is_letter c || is_digit c then ([], Some (InName (snoc b c)))
      else ([NAME b], fresh c)
  | InNumber b =>
      if is_digit c || is_letter c || (code_of c =? 46) || exponent_sign b c
      then ([], Some (InNumber (snoc b c)))
      else ([NUMBER b], fresh c)
  | InOp b =>
      if mem (snoc b c) two_char_ops then ([OP (snoc b c)], Some Idle)
      else if String.eqb b "." && is_digit c then ([], Some (InNumber (snoc b c)))
      else ([OP b], fresh c)
  | Idle => ([], fresh c)
  end.

Fixpoint lex_from (st : lex_state) (s : string) : list token :=
  match s with
  | EmptyString => flush st
  | String c rest =>
      match step st c with
      | (out, Some st') => out ++ lex_from st' rest
      | (out, None) => out
      end
  end.

(** The tokens of one physical line. *)
Definition lex (line : string) : list token := lex_from Idle line.

(** ** Logical lines *)

(** A statement is a logical line of a code cell: physical lines are joined
    while a bracket is open or after a trailing backslash; blank and
    comment-only lines give no statement.  [cell_ix] is the index of the
    cell in the document (markdown cells counted), [indented] tells whether
    the first physical line starts with white space. *)
Record stmt : Type := {
  cell_ix : nat;
  indented : bool;
  toks : list token
}.

Definition is_op (o : string) (t : token) : bool :=
  match t with OP x => String.eqb x o | _ => false end.

Definition opens (t : token) : bool :=
  is_op "(" t || is_op "[" t || is_op "{" t.

Definition closes (t : token) : bool :=
  is_op ")" t || is_op "]" t || is_op "}" t.

Definition depth_step (d : nat) (t : token) : nat :=
  if opens t then S d else if closes t then pred d else d.

Definition depth_after (d : nat) (ts : list token) : nat :=
  fold_left depth_step ts d.

(** A trailing backslash continues the line; it is dropped. *)
Definition strip_backslash (ts : list token) : list token * bool :=
  match rev ts with
  | t :: r => if is_op "\" t then (rev r, true) else (ts, false)
  | [] => (ts, false)
  end.

Definition starts_with_space (line : string) : bool :=
  match line with
  | String c _ => is_space c
  | EmptyString => false
  end.

Fixpoint join_lines (ix : nat) (pending : option (bool * list token))
         (depth : nat) (lines : list string) : list stmt :=
  match lines with
  | [] =>
      match pending with
      | Some (ind, acc) => [ {| cell_ix := ix; indented := ind; toks := acc |} ]
      | None => []
      end
  | l :: rest =>
      let (ts, cont) := strip_backslash (lex l) in
      let (ind, acc) :=
        match pending with
        | Some (ind, acc) => (ind, acc ++ ts)
        | None => (starts_with_space l, ts)
        end in
      let d := depth_after depth ts in
      if cont || (0 <? d) then join_lines ix (Some (ind, acc)) d rest
      else match acc with
           | [] => join_lines ix None 0 rest
           | _ => {| cell_ix := ix; indented := ind; toks := acc |}
                    :: join_lines ix None 0 rest
           end
  end.

Definition cell_stmts (ix : nat) (src : list string) : list stmt :=
  join_lines ix None 0 src.

Fixpoint stmts_from (ix : nat) (cs : list cell) : list stmt :=
  match cs with
  | [] => []
  | markdown _ :: r => stmts_from (S ix) r
  | code src :: r => cell_stmts ix src ++ stmts_from (S ix) r
  end.

(** The statements of a notebook, in cell order, top to bottom. *)
Definition stmts (nb : notebook) : list stmt := stmts_from 0 (cells nb).

(** ** Python 2 vocabulary *)

Definition keywords : list string :=
  ["and"; "as"; "assert"; "break"; "class"; "continue"; "def"; "del";
   "elif"; "else"; "except"; "exec"; "finally"; "for"; "from"; "global";
   "if"; "import"; "in"; "is"; "lambda"; "not"; "or"; "pass"; "print";
   "raise"; "return"; "try"; "while"; "with"; "yield"].

(** The names a fresh IPython kernel on Python 2.7 resolves without any
    import: the module [__builtin__] and the names IPython adds. *)
Definition builtins : list string :=
  ["ArithmeticError"; "AssertionError"; "AttributeError"; "BaseException";
   "BufferError"; "BytesWarning"; "DeprecationWarning"; "EOFError";
   "Ellipsis"; "EnvironmentError"; "Exception"; "False";
   "FloatingPointError"; "FutureWarning"; "GeneratorExit"; "IOError";
   "ImportError"; "ImportWarning"; "IndentationError"; "IndexError";
   "KeyError"; "KeyboardInterrupt"; "LookupError"; "MemoryError";
   "NameError"; "None"; "NotImplemented"; "NotImplementedError"; "OSError";
   "OverflowError"; "PendingDeprecationWarning"; "ReferenceError";
   "RuntimeError"; "RuntimeWarning"; "StandardError"; "StopIteration";
   "SyntaxError"; "SyntaxWarning"; "SystemError"; "SystemExit"; "TabError";
   "True"; "TypeError"; "UnboundLocalError"; "UnicodeDecodeError";
   "UnicodeEncodeError"; "UnicodeError"; "UnicodeTranslateError";
   "UnicodeWarning"; "UserWarning"; "ValueError"; "Warning";
   "ZeroDivisionError"; "__debug__"; "__doc__"; "__import__"; "__name__";
   "__package__";
   "abs"; "all"; "any"; "apply"; "basestring"; "bin"; "bool"; "buffer";
   "bytearray"; "bytes"; "callable"; "chr"; "classmethod"; "cmp"; "coerce";
   "compile"; "complex"; "copyright"; "credits"; "delattr"; "dict"; "dir";
   "divmod"; "enumerate"; "eval"; "execfile"; "exit"; "file"; "filter";
   "float"; "format"; "frozenset"; "getattr"; "globals"; "hasattr"; "hash";
   "help"; "hex"; "id"; "input"; "int"; "intern"; "isinstance";
   "issubclass"; "iter"; "len"; "license"; "list"; "locals"; "long"; "map";
   "max"; "memoryview"; "min"; "next"; "object"; "oct"; "open"; "ord";
   "pow"; "property"; "quit"; "range"; "raw_input"; "reduce"; "reload";
   "repr"; "reversed"; "round"; "set"; "setattr"; "slice"; "sorted";
   "staticmethod"; "str"; "sum"; "super"; "tuple"; "type"; "unichr";
   "unicode"; "vars"; "xrange"; "zip";
   "In"; "Out"; "get_ipython"; "_"; "__"; "___"; "_i"; "_ii"; "_iii";
   "_ih"; "_oh"; "_dh"; "_sh"].

(** ** IPython special lines *)

(** A line magic ([%name ...]), a help request ([? name]) or a shell escape
    is handled by IPython before Python parses the cell. *)
Definition is_magic (ts : list token) : bool :=
  match ts with
  | t :: _ => is_op "%" t || is_op "?" t || is_op "!" t
  | [] => false
  end.

(** ** Imports *)

Inductive import_stmt : Type :=
| ImportModule (module : list string) (alias : option string)
| FromImport (module : list string) (names : list (string * string)).

Fixpoint dotted (ts : list token) : list string * list token :=
  match ts with
  | NAME x :: rest =>
      match rest with
      | OP o :: rest' =>
          if String.eqb o "."
          then let (p, r) := dotted rest' in (x :: p, r)
          else ([x], rest)
      | _ => ([x], rest)
      end
  | _ => ([], ts)
  end.

(** The pieces of a token list between its commas. *)
Fixpoint split_commas (cur : list token) (ts : list token) : list (list token) :=
  match ts with
  | [] => [rev cur]
  | t :: rest =>
      if is_op "," t then rev cur :: split_commas [] rest
      else split_commas (t :: cur) rest
  end.

Definition import_item (ts : list token) : import_stmt :=
  let (m, r) := dotted ts in
  match r with
  | NAME a :: NAME y :: _ =>
      if String.eqb a "as" then ImportModule m (Some y) else ImportModule m None
  | _ => ImportModule m None
  end.

Definition from_item (ts : list token) : list (string * string) :=
  match filter (fun t => negb (opens t || closes t)) ts with
  | NAME x :: NAME a :: NAME y :: _ =>
      if String.eqb a "as" then [(x, y)] else [(x, x)]
  | NAME x :: _ => [(x, x)]
  | _ => []
  end.

(** The module path of a [from] import; the leading dots of a relative
    import are kept as components. *)
Fixpoint relative_dotted (ts : list token) : list string * list token :=
  match ts with
  | OP o :: rest =>
      if String.eqb o "."
      then let (p, r) := relative_dotted rest in ("." :: p, r)
      else dotted ts
  | _ => dotted ts
  end.

Definition imports_of (ts : list token) : list import_stmt :=
  match ts with
  | NAME k :: rest =>
      if String.eqb k "import" then map import_item (split_commas [] rest)
      else if String.eqb k "from" then
        let (m, r) := relative_dotted rest in
        match r with
        | NAME i :: names =>
            if String.eqb i "import"
            then [FromImport m (flat_map from_item (split_commas [] names))]
            else []
        | _ => []
        end
      else []
  | _ => []
  end.

Definition module_of (i : import_stmt) : list string :=
  match i with ImportModule m _ | FromImport m _ => m end.

(** The names an import binds in the kernel namespace. *)
Definition import_binds (i : import_stmt) : list string :=
  match i with
  | ImportModule m (Some a) => [a]
  | ImportModule m None => firstn 1 m
  | FromImport _ names => map snd names
  end.

(** The top-level package of a module path. *)
Definition root (m : list string) : string := hd EmptyString m.

(** ** Calls *)

(** The receiver of a method call on something that is not a dotted name. *)
Definition no_receiver : string := "<expr>".

(** Every call of a statement, as the dotted path of its callee, with the
    tokens that follow the opening parenthesis. *)
Fixpoint calls_from (chain : option (list string)) (after_dot : bool)
         (ts : list token) : list (list string * list token) :=
  match ts with
  | [] => []
  | NAME x :: rest =>
      if mem x keywords then calls_from None false rest
      else if after_dot then
        calls_from (Some (match chain with
                          | Some p => p ++ [x]
                          | None => [no_receiver; x]
                          end)) false rest
      else calls_from (Some [x]) false rest
  | OP o :: rest =>
      if String.eqb o "." then calls_from chain true rest
      else if String.eqb o "(" then
        match chain, after_dot with
        | Some p, false => (p, rest) :: calls_from None false rest
        | _, _ => calls_from None false rest
        end
      else calls_from None false rest
  | _ :: rest => calls_from None false rest
  end.

Definition call_sites (s : stmt) : list (list string * list token) :=
  if is_magic (toks s) then [] else calls_from None false (toks s).

Definition calls (s : stmt) : list (list string) := map fst (call_sites s).

(** The callees that are a plain name, as in [f(...)]. *)
Definition bare_calls (s : stmt) : list string :=
  flat_map (fun p => match p with [f] => [f] | _ => [] end) (calls s).

(** ** Bindings and uses *)

(** The tokens left and right of the first [=] outside brackets. *)
Fixpoint split_assign (depth : nat) (lhs : list token) (ts : list token)
  : option (list token * list token) :=
  match ts with
  | [] => None
  | t :: rest =>
      if is_op "=" t && (depth =? 0) then Some (rev lhs, rest)
      else split_assign (depth_step depth t) (t :: lhs) rest
  end.

(** The names of an assignment target that is a name or a tuple of names. *)
Fixpoint simple_targets (lhs : list token) : option (list string) :=
  match lhs with
  | [] => Some []
  | NAME x :: rest =>
      if mem x keywords then None
      else option_map (cons x) (simple_targets rest)
  | OP o :: rest =>
      if String.eqb o "," then simple_targets rest else None
  | _ :: _ => None
  end.

(** The variables of the [for ... in] clauses of a statement. *)
Fixpoint for_bound (collecting : bool) (ts : list token) : list string :=
  match ts with
  | [] => []
  | NAME x :: rest =>
      if String.eqb x "for" then for_bound true rest
      else if String.eqb x "in" then for_bound false rest
      else if collecting then x :: for_bound true rest
      else for_bound false rest
  | _ :: rest => for_bound collecting rest
  end.

Definition assigned (ts : list token) : list string :=
  match split_assign 0 [] ts with
  | Some (lhs, _) =>
      match simple_targets lhs with Some xs => xs | None => [] end
  | None => []
  end.

(** The names a statement binds in the kernel namespace when it runs. *)
Definition binds (s : stmt) : list string :=
  if is_magic (toks s) then []
  else match imports_of (toks s) with
       | [] => assigned (toks s) ++ for_bound false (toks s)
       | imps => flat_map import_binds imps
       end.

(** The names an expression reads: not an attribute, not a keyword, not
    the name of a keyword argument. *)
Fixpoint names_used (depth : nat) (after_dot : bool) (ts : list token)
  : list string :=
  match ts with
  | [] => []
  | NAME x :: rest =>
      let kwarg := match rest with
                   | t :: _ => is_op "=" t && (0 <? depth)
                   | [] => false
                   end in
      if after_dot || kwarg || mem x keywords
      then names_used depth false rest
      else x :: names_used depth false rest
  | t :: rest => names_used (depth_step depth t) (is_op "." t) rest
  end.

(** The names a statement reads from the kernel namespace. *)
Definition uses (s : stmt) : list string :=
  if is_magic (toks s) then []
  else match imports_of (toks s) with
       | _ :: _ => []
       | [] =>
           let expr := match split_assign 0 [] (toks s) with
                       | Some (lhs, rhs) =>
                           match simple_targets lhs with
                           | Some _ => rhs
                           | None => toks s
                           end
                       | None => toks s
                       end in
           filter (fun x => negb (mem x (for_bound false (toks s))))
                  (names_used 0 false expr)
       end.

(** ** Statements Python rejects *)

(** A token after which an attribute or a subscript may follow. *)
Definition ends_operand (t : token) : bool :=
  match t with
  | NAME x => negb (mem x keywords)
  | STR _ => true
  | NUMBER _ => true
  | OP _ => closes t
  end.

(** A token after which a dot may stand: an operand, another dot (the
    ellipsis) or the [from] of a relative import. *)
Definition may_precede_dot (t : token) : bool :=
  ends_operand t || is_op "." t
  || match t with NAME x => String.eqb x "from" | _ => false end.

(** Two adjacent tokens no Python statement contains: an argument list that
    opens with a comma, a keyword argument or an assignment without a
    value, a dot without a receiver. *)
Definition bad_pair (a b : token) : bool :=
  (is_op "(" a && is_op "," b)
  || (is_op "=" a && (is_op ")" b || is_op "," b))
  || (negb (may_precede_dot a) && is_op "." b).

Fixpoint has_bad_pair (ts : list token) : bool :=
  match ts with
  | a :: rest =>
      match rest with
      | b :: _ => bad_pair a b || has_bad_pair rest
      | [] => false
      end
  | [] => false
  end.

(** An empty subscript, as in [my_name[]]. *)
Fixpoint has_empty_subscript (ts : list token) : bool :=
  match ts with
  | a :: rest =>
      match rest with
      | b :: c :: _ =>
          (ends_operand a && is_op "[" b && is_op "]" c)
          || has_empty_subscript rest
      | _ => false
      end
  | [] => false
  end.

Definition empty_lhs (ts : list token) : bool :=
  match ts with t :: _ => is_op "=" t | [] => false end.

Definition empty_rhs (ts : list token) : bool :=
  match rev ts with t :: _ => is_op "=" t | [] => false end.

Definition leading_dot (ts : list token) : bool :=
  match ts with t :: _ => is_op "." t | [] => false end.

(** Sufficient conditions for a syntax error: each of them makes the
    statement ill-formed in Python 2 and in Python 3. *)
Definition syntax_invalid (s : stmt) : bool :=
  negb (is_magic (toks s))
  && (empty_lhs (toks s) || empty_rhs (toks s) || leading_dot (toks s)
      || has_bad_pair (toks s) || has_empty_subscript (toks s)).

(** A cell left as a stub: Python rejects one of its statements. *)
Definition stub_cell (ix : nat) (src : list string) : bool :=
  existsb syntax_invalid (cell_stmts ix src).

(** After the word [print] or [exec], the tokens that start an operand and
    cannot continue an expression: a string, a number, a name, [not] (but
    not [not in]), [lambda], a backquote, a tilde, a brace.  Python 2 reads the
    statement form; Python 3, where the word is a name, finds two operands
    in a row and rejects the line.  After a parenthesis, a bracket, a dot
    or an infix operator Python 3 reads a call, a subscript, an attribute
    or an operation on the name, and compiles the line. *)
Definition starts_operand (ts : list token) : bool :=
  match ts with
  | STR _ :: _ => true
  | NUMBER _ :: _ => true
  | NAME x :: rest =>
      if String.eqb x "not"
      then match rest with
           | NAME i :: _ => negb (String.eqb i "in")
           | _ => true
           end
      else String.eqb x "lambda" || negb (mem x keywords)
  | OP o :: _ => mem o ["`"; "~"; "{"]
  | [] => false
  end.

(** The places of a logical line where a simple statement starts: its
    beginning, after a semicolon, and after the colon of a compound
    statement; each with the tokens from there on. *)
Fixpoint statement_starts (depth : nat) (fresh_start : bool) (ts : list token)
  : list (list token) :=
  match ts with
  | [] => []
  | t :: rest =>
      let here := if fresh_start then [ts] else [] in
      here ++ statement_starts (depth_step depth t)
                               ((depth =? 0) && (is_op ":" t || is_op ";" t))
                               rest
  end.

(** The statement form of the word [k]: [k] where a statement starts,
    followed by the start of an operand. *)
Definition word_statement (k : string) (ts : list token) : bool :=
  existsb (fun st => match st with
                     | NAME p :: rest => String.eqb p k && starts_operand rest
                     | _ => false
                     end)
          (statement_starts 0 true ts).

(** A [print] statement of Python 2 that Python 3 rejects, as in
    [print size]; a stub such as [print .shape], which Python 2 rejects as
    well, is none, nor is [print(x)], [print], [print -1] or [print [0]],
    which Python 3 compiles. *)
Definition print_statement (s : stmt) : bool :=
  negb (syntax_invalid s) && word_statement "print" (toks s).

(** An [exec] statement of Python 2, as in [exec code in scope]. *)
Definition exec_statement (s : stmt) : bool :=
  negb (syntax_invalid s) && word_statement "exec" (toks s).

Fixpoint comma_outside_brackets (depth : nat) (ts : list token) : bool :=
  match ts with
  | [] => false
  | t :: rest =>
      (is_op "," t && (depth =? 0))
      || comma_outside_brackets (depth_step depth t) rest
  end.

(** The Python 2 forms [raise E, value] and [except E, name:]. *)
Definition comma_clause (s : stmt) : bool :=
  existsb (fun st => match st with
                     | NAME k :: rest =>
                         (String.eqb k "raise" || String.eqb k "except")
                         && comma_outside_brackets 0 rest
                     | _ => false
                     end)
          (statement_starts 0 true (toks s)).

(** A tuple among the parameters, as in [lambda (a, b): a] or
    [def f((a, b), c):]: a parenthesis that opens the parameter list of a
    [lambda], or one that follows the opening parenthesis or a comma of the
    parameter list of a [def]. *)
Fixpoint tuple_in_parameters (depth : nat) (ts : list token) : bool :=
  match ts with
  | a :: rest =>
      match rest with
      | b :: _ =>
          (is_op "(" b
           && ((is_op "(" a && (depth =? 0)) || (is_op "," a && (depth =? 1))))
          || tuple_in_parameters (depth_step depth a) rest
      | [] => false
      end
  | [] => false
  end.

Definition tuple_parameter (s : stmt) : bool :=
  existsb (fun st => match st with
                     | NAME k :: NAME f :: rest =>
                         String.eqb k "def" && tuple_in_parameters 0 rest
                     | _ => false
                     end)
          (statement_starts 0 true (toks s))
  || (fix lambda_tuple (ts : list token) : bool :=
        match ts with
        | NAME k :: rest =>
            match rest with
            | t :: _ => (String.eqb k "lambda" && is_op "(" t)
                        || lambda_tuple rest
            | [] => false
            end
        | _ :: rest => lambda_tuple rest
        | [] => false
        end) (toks s).

Fixpoint all_chars (p : ascii -> bool) (s : string) : bool :=
  match s with
  | EmptyString => true
  | String c r => p c && all_chars p r
  end.

(** A literal of Python 2 only: a long integer such as [10L], or an octal
    number such as [0777]: digits only, a leading zero, not all zeros. *)
Definition python2_literal (t : token) : bool :=
  match t with
  | NUMBER n =>
      match last_char n with
      | Some c => (code_of c =? 76) || (code_of c =? 108)
      | None => false
      end
      || match n with
         | String z (String d r) =>
             (code_of z =? 48) && all_chars is_digit (String d r)
             && negb (all_chars (fun c => code_of c =? 48) (String d r))
         | _ => false
         end
  | _ => false
  end.

(** A statement that Python 2 accepts and Python 3 rejects: a [print] or
    [exec] statement, [raise] or [except] with a comma, a tuple among the
    parameters, the operator [<>], a backquoted expression, a long or
    octal literal. *)
Definition python2_statement (s : stmt) : bool :=
  negb (is_magic (toks s)) && negb (syntax_invalid s)
  && (print_statement s || exec_statement s || comma_clause s
      || tuple_parameter s
      || existsb (fun t => is_op "<>" t || is_op "`" t || python2_literal t)
                 (toks s)).

(** ** Running a notebook *)

(** The result of running the cells of a notebook top to bottom in a fresh
    kernel, library calls assumed to succeed.  The run stops at the first
    cell that fails. *)
Inductive outcome : Type :=
| Completed
| SyntaxErrorAt (cell : nat)
| NameErrorAt (cell : nat) (name : string).

Definition first_unbound (ns : list string) (xs : list string) : option string :=
  find (fun x => negb (mem x ns)) xs.

(** The statements of a cell run in order; each reads its names, then binds
    its targets.  The result is the namespace reached and the name whose
    lookup failed, if any. *)
Fixpoint exec_stmts (ns : list string) (ss : list stmt)
  : list string * option string :=
  match ss with
  | [] => (ns, None)
  | s :: rest =>
      match first_unbound ns (uses s) with
      | Some x => (ns, Some x)
      | None => exec_stmts (binds s ++ ns) rest
      end
  end.

(** A cell is compiled as a whole before any of its statements runs. *)
Fixpoint run_cells (ix : nat) (ns : list string) (cs : list cell)
  : outcome * list string :=
  match cs with
  | [] => (Completed, ns)
  | markdown _ :: rest => run_cells (S ix) ns rest
  | code src :: rest =>
      if stub_cell ix src then (SyntaxErrorAt ix, ns)
      else match exec_stmts ns (cell_stmts ix src) with
           | (ns', Some x) => (NameErrorAt ix x, ns')
           | (ns', None) => run_cells (S ix) ns' rest
           end
  end.

Definition run (nb : notebook) : outcome * list string :=
  run_cells 0 builtins (cells nb).

(** The index of the first stub cell of a notebook. *)
Fixpoint first_stub_from (ix : nat) (cs : list cell) : option nat :=
  match cs with
  | [] => None
  | markdown _ :: rest => first_stub_from (S ix) rest
  | code src :: rest =>
      if stub_cell ix src then Some ix else first_stub_from (S ix) rest
  end.

Definition first_stub (nb : notebook) : option nat :=
  first_stub_from 0 (cells nb).

(** ** Random number generation *)

Fixpoint path_eqb (p q : list string) : bool :=
  match p, q with
  | [], [] => true
  | x :: p', y :: q' => String.eqb x y && path_eqb p' q'
  | _, _ => false
  end.

Fixpoint digits_value (acc : nat) (s : string) : option nat :=
  match s with
  | EmptyString => Some acc
  | String c r =>
      if is_digit c then digits_value (10 * acc + (code_of c - 48)) r
      else None
  end.

(** The value of a decimal literal. *)
Definition literal_value (s : string) : option nat :=
  match s with
  | EmptyString => None
  | _ => digits_value 0 s
  end.

(** What a statement does to NumPy's global generator. *)
Inductive rng_event : Type :=
| Seed (k : option nat)                     (* [np.random.seed]; its literal argument *)
| Draw (callee : list string) (cell : nat). (* a call that draws, in cell [cell] *)

Definition seed_path : list string := ["np"; "random"; "seed"].

(** Modelled from the spec: the dataset generators of the external library
    that draw from NumPy's global generator; the library is not part of the
    corpus. *)
Definition random_generators : list (list string) :=
  [ ["make_elastic_FE_strain_random"]; ["make_cahn_hilliard"] ].

(** A call draws from the global generator if it is one of the random
    dataset generators or a function of [np.random] other than [seed]. *)
Definition consumes_randomness (p : list string) : bool :=
  existsb (path_eqb p) random_generators
  || match p with
     | [a; b; f] =>
         String.eqb a "np" && String.eqb b "random" && negb (String.eqb f "seed")
     | _ => false
     end.

Definition seed_argument (args : list token) : option nat :=
  match args with
  | NUMBER k :: t :: _ => if is_op ")" t then literal_value k else None
  | _ => None
  end.

Definition event_of (s : stmt) (site : list string * list token)
  : list rng_event :=
  let (p, args) := site in
  if path_eqb p seed_path then [Seed (seed_argument args)]
  else if consumes_randomness p then [Draw p (cell_ix s)]
  else [].

Definition stmt_events (s : stmt) : list rng_event :=
  flat_map (event_of s) (call_sites s).

(** The generator events of a notebook, in the order of its statements. *)
Definition rng_events (nb : notebook) : list rng_event :=
  flat_map stmt_events (stmts nb).

Section Replay.

(** The external library is opaque: a generator state [gen], the state
    [seeded k] that [np.random.seed(k)] installs and, for every drawing
    call site, the value it returns and the state it leaves. *)
Variables gen out : Type.
Variable seeded : nat -> gen.
Variable draw : list string -> nat -> gen -> out * gen.

(** The values drawn by a sequence of events from the state [g].  A seed
    call without a literal argument takes its seed from outside the
    notebook: the model gives no result. *)
Fixpoint replay (g : gen) (evs : list rng_event) : option (list out) :=
  match evs with
  | [] => Some []
  | Seed (Some k) :: r => replay (seeded k) r
  | Seed None :: r => None
  | Draw f c :: r =>
      let (v, g') := draw f c g in option_map (cons v) (replay g' r)
  end.

End Replay.

(** The events start by installing a literal seed, or there is none. *)
Definition seeded_first (evs : list rng_event) : bool :=
  match evs with
  | [] => true
  | Seed (Some _) :: _ => true
  | _ => false
  end.

(** ** Vocabularies and checks over the statements *)

Definition names_of (ts : list token) : list string :=
  flat_map (fun t => match t with NAME x => [x] | _ => [] end) ts.

Fixpoint starts_with (p s : string) : bool :=
  match p, s with
  | EmptyString, _ => true
  | String a p', String b s' => Ascii.eqb a b && starts_with p' s'
  | String _ _, EmptyString => false
  end.

(** [contains p s]: the text [p] occurs in [s]. *)
Fixpoint contains (p s : string) : bool :=
  starts_with p s
  || match s with
     | EmptyString => false
     | String _ r => contains p r
     end.

Definition substring_of (p s : string) : Prop :=
  exists a b, s = String.append a (String.append p b).

(** No name of the statements is one of [banned]. *)
Definition avoids_names (banned : list string) (ss : list stmt) : bool :=
  forallb (fun s => forallb (fun x => negb (mem x banned)) (names_of (toks s))) ss.


(** The keywords of exception handling. *)
Definition error_keywords : list string :=
  ["try"; "except"; "finally"; "raise"; "assert"].

(** The keywords that open a statement which branches on a value. *)
Definition conditional_heads : list string :=
  ["if"; "elif"; "else"; "while"; "with"; "assert"].

(** Fragments of the names by which Python code inspects a failure. *)
Definition error_words : list string :=
  ["rror"; "xcept"; "errno"; "status"; "fail"; "warn"; "traceback"; "exc_"].

(** Fragments of the names by which Python code writes to a file or a
    store: builtins, NumPy, pickle, matplotlib, pandas, IPython magics. *)
Definition persistence_words : list string :=
  ["open"; "file"; "write"; "save"; "dump"; "pickle"; "shelve"; "store";
   "sql"; "to_csv"; "memmap"; "mkdir"; "remove"; "unlink"; "rename";
   "shutil"; "tempfile"; "logstart"].


(** The top-level packages the corpus imports from. *)
Definition external_roots : list string :=
  ["pymks"; "sklearn"; "numpy"; "matplotlib"; "math"].

(** The packages whose symbols are called by name. *)
Definition called_roots : list string := ["pymks"; "sklearn"].

Definition head_name (s : stmt) : option string :=
  match toks s with
  | NAME x :: _ => Some x
  | _ => None
  end.





(** ** Checks that depend on what precedes a statement *)

Fixpoint forallb_prefix {A : Type} (p : list A -> A -> bool)
         (pre l : list A) : bool :=
  match l with
  | [] => true
  | x :: r => p pre x && forallb_prefix p (pre ++ [x]) r
  end.

(** [s] imports the name [f] from the module [m]. *)
Definition imports_from (s : stmt) (m : list string) (f : string) : Prop :=
  exists names,
    In (FromImport m names) (imports_of (toks s)) /\ In f (map snd names).

Definition from_import_b (roots : list string) (f : string) (s : stmt) : bool :=
  existsb (fun i => match i with
                    | FromImport m names =>
                        mem (root m) roots && mem f (map snd names)
                    | ImportModule _ _ => false
                    end)
          (imports_of (toks s)).

(** Every function called by name in [s] is a builtin, one of [allowed], or
    imported by a statement of [pre] from a package of [called_roots]. *)
Definition calls_resolved_b (allowed : list string) (pre : list stmt) (s : stmt)
  : bool :=
  forallb (fun f => mem f builtins || mem f allowed
                    || existsb (from_import_b called_roots f) pre)
          (bare_calls s).

Definition bound_in (ss : list stmt) (x : string) : bool :=
  existsb (fun s => mem x (binds s)) ss.


Definition seed_constants : list nat := [99; 191; 101].

Definition literal_seed_b (e : rng_event) : bool :=
  match e with
  | Seed (Some k) => existsb (Nat.eqb k) seed_constants
  | _ => false
  end.

(** A draw is preceded by a seed call with one of the constants. *)
Definition seeded_before_b (pre : list rng_event) (e : rng_event) : bool :=
  match e with
  | Draw _ _ => existsb literal_seed_b pre
  | Seed _ => true
  end.

(** Every seed call of the events has a literal argument. *)
Definition seeds_literal (evs : list rng_event) : bool :=
  forallb (fun e => match e with Seed None => false | _ => true end) evs.

(** ** The claims that the corpus contradicts, as they are worded *)

(** Every call of an imported symbol is a call into the MKS library. *)
Definition calls_only_mks (nb : notebook) : Prop :=
  forall pre s post f s' m,
    stmts nb = pre ++ s :: post -> In f (bare_calls s) ->
    In s' pre -> imports_from s' m f -> root m = "pymks".

(** The run of a notebook fails with a syntax error at its first stub cell. *)
Definition fails_at_first_stub (nb : notebook) : Prop :=
  exists ix, first_stub nb = Some ix /\ fst (run nb) = SyntaxErrorAt ix.

(** The notebook declares the Python 2 kernel of version 2.7.9. *)
Definition declares_python_2_7_9 (nb : notebook) : Prop :=
  kernelspec_name nb = Some "python2" /\ language_version nb = Some "2.7.9".

(** The notebook has a statement that only Python 2 accepts: the ground on
    which a notebook stays bound to Python 2 whatever kernel runs it and
    however its blanks are filled. *)
Definition python2_only (nb : notebook) : Prop :=
  exists s, In s (stmts nb) /\ python2_statement s = true.

(** The notebook has a [print] statement of Python 2. *)
Definition has_print_statement (nb : notebook) : Prop :=
  exists s, In s (stmts nb) /\ print_statement s = true.

Definition under_notebooks (f : source_file) : bool :=
  starts_with "src/notebooks/" (path f).

Definition python_intro_path : string :=
  "src/notebooks/.ipynb_checkpoints/python_intro-checkpoint.ipynb".

(** The notebooks the claim on random seeds is about. *)
Definition seeded_paths : list string :=
  ["src/notebooks/elasticity_2D.ipynb"; "src/notebooks/cahn_hilliard.ipynb"].

(** ** Further checks and notions the claims use *)

Definition no_stmt : stmt := {| cell_ix := 0; indented := false; toks := [] |}.

(** The statement a single physical line makes, for the examples. *)
Definition stmt_of_line (l : string) : stmt :=
  {| cell_ix := 0; indented := starts_with_space l; toks := lex l |}.

(** The notebook has a call of the dotted path [p]. *)
Definition calls_in (nb : notebook) (p : list string) : Prop :=
  exists s, In s (stmts nb) /\ In p (calls s).

(** The notebook imports the name [f] from the module [m]. *)
Definition imports_in (nb : notebook) (m : list string) (f : string) : Prop :=
  exists s, In s (stmts nb) /\ imports_from s m f.

(** No statement opens with a keyword of [conditional_heads]. *)
Definition heads_ok (ss : list stmt) : bool :=
  forallb (fun s => match head_name s with
                    | Some k => negb (mem k conditional_heads)
                    | None => true
                    end) ss.

(** Every import is from a package of [roots]. *)
Definition imports_within (roots : list string) (ss : list stmt) : bool :=
  forallb (fun s => forallb (fun i => mem (root (module_of i)) roots)
                            (imports_of (toks s))) ss.


(** The statements that touch the generator are not in a loop body. *)
Definition events_at_top_level (ss : list stmt) : bool :=
  forallb (fun s => match stmt_events s with
                    | [] => true
                    | _ :: _ => negb (indented s)
                    end) ss.

(** The files whose notebooks have Python 2 [print] statements. *)
Definition print_statement_paths : list string :=
  ["src/notebooks/elasticity_2D.ipynb"; "src/notebooks/checker_board.ipynb"].

(** The modules the code cells import from, all of them. *)
Definition corpus_modules : list (list string) :=
  [ ["pymks"]; ["pymks"; "bases"]; ["pymks"; "datasets"];
    ["pymks"; "datasets"; "cahn_hilliard_simulation"];
    ["pymks"; "stats"]; ["pymks"; "tools"];
    ["sklearn"]; ["sklearn"; "cross_validation"]; ["sklearn"; "grid_search"];
    ["sklearn"; "metrics"];
    ["numpy"]; ["matplotlib"; "pyplot"]; ["math"] ].

(** The callees of the code cells, all of them: the pymks functions and
    classes, the sklearn ones, the functions of numpy, matplotlib.pyplot
    and math, the methods of the objects these return, and the builtin
    [range]; [log10] is the unbound name python_intro calls. *)
Definition corpus_calls : list (list string) :=
  [ ["make_delta_microstructures"]; ["make_elastic_FE_strain_delta"];
    ["make_elastic_FE_strain_random"]; ["make_checkerboard_microstructure"];
    ["make_cahn_hilliard"]; ["CahnHilliardSimulation"]; ["ch_sim"; "run"];
    ["PrimitiveBasis"]; [no_receiver; "discretize"];
    ["MKSLocalizationModel"];
    ["model"; "fit"]; ["model"; "predict"]; ["model"; "resize_coeff"];
    ["model"; "score"];
    ["autocorrelate"]; ["crosscorrelate"];
    ["draw_microstructures"]; ["draw_microstructure_strain"];
    ["draw_coeff"]; ["draw_strains_compare"]; ["draw_differences"];
    ["draw_autocorrelations"]; ["draw_crosscorrelations"];
    ["draw_concentrations"]; ["draw_concentrations_compare"];
    ["draw_gridscores"]; ["draw_components"]; ["draw_goodness_of_fit"];
    ["train_test_split"]; ["GridSearchCV"]; ["gs"; "fit"]; ["gs"; "score"];
    ["datasets"; "load_diabetes"]; ["linear_model"; "LinearRegression"];
    ["regr"; "score"];
    ["np"; "random"; "seed"]; ["np"; "random"; "normal"];
    ["np"; "arange"]; ["np"; "eye"]; ["np"; "mean"]; ["np"; "ones"];
    ["np"; "prod"]; ["np"; "product"];
    ["X"; "reshape"]; ["y"; "reshape"]; ["phi0"; "copy"];
    ["plt"; "plot"]; ["plt"; "scatter"]; ["plt"; "show"];
    ["plt"; "xticks"]; ["plt"; "yticks"];
    ["math"; "log10"]; ["log10"]; ["range"] ].

Definition path_mem (p : list string) (l : list (list string)) : bool :=
  existsb (path_eqb p) l.

(** Every import of the statements is from a module of [ms]. *)
Definition modules_within (ms : list (list string)) (ss : list stmt) : bool :=
  forallb (fun s => forallb (fun i => path_mem (module_of i) ms)
                            (imports_of (toks s))) ss.

(** Every call of the statements is a call of a path of [ps]. *)
Definition calls_within (ps : list (list string)) (ss : list stmt) : bool :=
  forallb (fun s => forallb (fun p => path_mem p ps) (calls s)) ss.

(** ** Where the value of a name comes from *)

(** The origin of the value a name holds at a point of a notebook: a module
    or symbol bound by an import, or an object reached from one by calls,
    attributes and subscripts; a builtin; a value the cell writes itself (a
    literal, a display, an arithmetic expression, a comprehension, a loop
    variable); the missing right-hand side of a stub; nothing. *)
Inductive origin : Type :=
| Imported (module : list string)
| BuiltinName
| Inline
| BlankStub
| Unbound.

Definition origins : Type := list (string * origin).

Fixpoint lookup_origin (ns : origins) (x : string) : option origin :=
  match ns with
  | [] => None
  | (y, o) :: r => if String.eqb x y then Some o else lookup_origin r x
  end.

Definition origin_of (ns : origins) (x : string) : origin :=
  match lookup_origin ns x with
  | Some o => o
  | None => if mem x builtins then BuiltinName else Unbound
  end.

(** An expression that only reaches into an object: a name followed by
    attributes, calls and subscripts, as in [np.random.normal(0, 1e-9, s)]
    or [diabetes.data[:, np.newaxis]].  Outside brackets it has no operator,
    no literal and no keyword. *)
Fixpoint access_path (depth : nat) (ts : list token) : bool :=
  match ts with
  | [] => true
  | t :: rest =>
      if 0 <? depth then access_path (depth_step depth t) rest
      else match t with
           | NAME x => negb (mem x keywords) && access_path depth rest
           | OP _ => (is_op "." t || opens t)
                     && access_path (depth_step depth t) rest
           | _ => false
           end
  end.

(** The origin of the value of an expression: that of its root name for an
    access path, a blank for a missing expression or a missing receiver. *)
Definition expr_origin (ns : origins) (e : list token) : origin :=
  match e with
  | [] => BlankStub
  | NAME x :: _ => if access_path 0 e then origin_of ns x else Inline
  | t :: _ => if is_op "." t then BlankStub else Inline
  end.

Definition import_origins (i : import_stmt) : origins :=
  map (fun x => (x, Imported (module_of i))) (import_binds i).

(** The expression a statement evaluates: the right-hand side of an
    assignment to names, the whole statement otherwise. *)
Definition expression (s : stmt) : list token :=
  match split_assign 0 [] (toks s) with
  | Some (lhs, rhs) =>
      match simple_targets lhs with
      | Some _ => rhs
      | None => toks s
      end
  | None => toks s
  end.

(** The origins a statement gives to the names it binds. *)
Definition stmt_origins (ns : origins) (s : stmt) : origins :=
  if is_magic (toks s) then []
  else match imports_of (toks s) with
       | [] =>
           map (fun x => (x, expr_origin ns (expression s))) (assigned (toks s))
           ++ map (fun x => (x, Inline)) (for_bound false (toks s))
       | imps => flat_map import_origins imps
       end.

(** The origins after the statements [ss], the latest binding first. *)
Definition origins_after (ns : origins) (ss : list stmt) : origins :=
  fold_left (fun ns s => stmt_origins ns s ++ ns) ss ns.

(** The name a call starts from: the function of [f(...)], the receiver of
    [r.a.b(...)]. *)
Definition receiver (p : list string) : string := hd EmptyString p.

(** A call is traced when the name it starts from holds an imported symbol
    or an object obtained from one, is a builtin, or is blank or unbound:
    it does not start from a value the cells compute themselves. *)
Definition traced (o : origin) : Prop :=
  (exists m, o = Imported m /\ In m corpus_modules)
  \/ o = BuiltinName \/ o = BlankStub \/ o = Unbound.

Definition traced_b (o : origin) : bool :=
  match o with
  | Imported m => path_mem m corpus_modules
  | Inline => false
  | BuiltinName | BlankStub | Unbound => true
  end.

Definition calls_traced_b (pre : list stmt) (s : stmt) : bool :=
  forallb (fun p => traced_b (origin_of (origins_after [] pre) (receiver p)))
          (calls s).

(** Every name [s] reads that holds an external object got it from an
    import of one of the thirteen modules. *)
Definition reads_traced_b (pre : list stmt) (s : stmt) : bool :=
  forallb (fun x => match origin_of (origins_after [] pre) x with
                    | Imported m => path_mem m corpus_modules
                    | _ => true
                    end)
          (uses s).





(** ** Equality of tokens *)

Definition token_eqb (a b : token) : bool :=
  match a, b with
  | NAME x, NAME y => String.eqb x y
  | NUMBER x, NUMBER y => String.eqb x y
  | STR x, STR y => String.eqb x y
  | OP x, OP y => String.eqb x y
  | _, _ => false
  end.

Fixpoint tokens_eqb (p q : list token) : bool :=
  match p, q with
  | [], [] => true
  | a :: p', b :: q' => token_eqb a b && tokens_eqb p' q'
  | _, _ => false
  end.

Definition tokens_mem (ts : list token) (l : list (list token)) : bool :=
  existsb (tokens_eqb ts) l.

(** ** Arithmetic written in the cells *)







(** ** IPython special lines, with their arguments *)

(** The special lines of the corpus: [%matplotlib inline],
    [%load_ext autoreload], [%autoreload 2], [? math.log10], [? np.dot]. *)
Definition special_lines : list (list token) :=
  [ [OP "%"; NAME "matplotlib"; NAME "inline"];
    [OP "%"; NAME "load_ext"; NAME "autoreload"];
    [OP "%"; NAME "autoreload"; NUMBER "2"];
    [OP "?"; NAME "math"; OP "."; NAME "log10"];
    [OP "?"; NAME "np"; OP "."; NAME "dot"] ].

Definition specials_listed (ss : list stmt) : bool :=
  forallb (fun s => negb (is_magic (toks s)) || tokens_mem (toks s) special_lines)
          ss.

(** ** Names and strings *)

(** The names and the string literals of a statement. *)
Definition texts_of (ts : list token) : list string :=
  flat_map (fun t => match t with
                     | NAME x => [x]
                     | STR x => [x]
                     | _ => []
                     end) ts.

(** No name and no string of the statements contains one of [words]. *)
Definition texts_avoid (words : list string) (ss : list stmt) : bool :=
  forallb (fun s =>
             forallb (fun x => forallb (fun w => negb (contains w x)) words)
                     (texts_of (toks s))) ss.

(** ** Branching on a value *)

Definition branching_names : list string :=
  ["if"; "elif"; "else"; "while"; "assert"; "and"; "or"; "not"; "is"].

Definition comparison_ops : list string :=
  ["=="; "!="; "<>"; "<"; ">"; "<="; ">="].

(** A token that tests a value. *)
Definition branching_token (t : token) : bool :=
  match t with
  | NAME x => mem x branching_names
  | OP o => mem o comparison_ops
  | _ => false
  end.

(** The selection of the grid scores of one polynomial degree in part_000:
    [target = [x for x in gs.grid_scores_ if x.parameters['degree'] == k][2:-1]]. *)
Definition degree_filter (target k : string) : list token :=
  [NAME target; OP "="; OP "["; NAME "x"; NAME "for"; NAME "x"; NAME "in";
   NAME "gs"; OP "."; NAME "grid_scores_"; NAME "if"; NAME "x"; OP ".";
   NAME "parameters"; OP "["; STR "degree"; OP "]"; OP "=="; NUMBER k;
   OP "]"; OP "["; NUMBER "2"; OP ":"; OP "-"; NUMBER "1"; OP "]"].

Definition degree_filters : list (string * string) :=
  [("gs_deg_1", "1"); ("gs_deg_2", "2"); ("gs_deg_3", "3")].

Definition is_degree_filter (ts : list token) : bool :=
  existsb (fun tk => tokens_eqb ts (degree_filter (fst tk) (snd tk)))
          degree_filters.

(** Every statement that tests a value is one of the degree filters. *)
Definition branches_listed (ss : list stmt) : bool :=
  forallb (fun s => negb (existsb branching_token (toks s))
                    || is_degree_filter (toks s)) ss.

(** The tokens before an [in], latest first, are the target of a [for]. *)
Definition for_target (before : list token) : bool :=
  match before with
  | NAME v :: NAME f :: _ => String.eqb f "for" && negb (mem v keywords)
  | _ => false
  end.

(** Every [in] of the tokens belongs to a [for]: none is a membership
    test. *)
Definition in_of_for (ts : list token) : bool :=
  forallb_prefix (fun pre t => match t with
                               | NAME x => negb (String.eqb x "in")
                                           || for_target (rev pre)
                               | _ => true
                               end) [] ts.

(** ** Names read and never bound *)

(** The names a notebook reads that none of its statements binds and that
    are no builtin. *)
Definition free_names (nb : notebook) : list string :=
  let ss := stmts nb in
  filter (fun x => negb (mem x builtins) && negb (bound_in ss x))
         (flat_map uses ss).







(** ** The claims that the corpus contradicts, as they are worded (continued) *)

(** The notebook calls [fit] with the data [x] among the arguments. *)
Definition fits_on (nb : notebook) (x : string) : Prop :=
  exists s p args,
    In s (stmts nb) /\ In (p, args) (call_sites s)
    /\ last p EmptyString = "fit" /\ In (NAME x) args.

Definition fits_on_b (x : string) (nb : notebook) : bool :=
  existsb (fun s =>
             existsb (fun c => String.eqb (last (fst c) EmptyString) "fit"
                               && mem x (names_of (snd c)))
                     (call_sites s))
          (stmts nb).

Definition calls_in_b (p : list string) (nb : notebook) : bool :=
  existsb (fun s => path_mem p (calls s)) (stmts nb).


(** ** Effects outside the kernel's memory *)

Definition last_name (p : list string) : string := last p EmptyString.

(** Modelled from the spec: the libraries are outside the corpus and the
    spec takes their calls to return in-memory values.  The operations by
    which Python 2 code opens, writes, saves or pickles a file or a store
    are told by the last name of the callee (builtins, file objects, NumPy,
    pickle, matplotlib, pandas, os) or by the module the call starts
    from. *)
Definition store_api : list string :=
  ["open"; "file"; "write"; "writelines"; "save"; "savez";
   "savez_compressed"; "savetxt"; "tofile"; "dump"; "savefig"; "imsave";
   "to_csv"; "to_pickle"; "to_hdf"; "to_sql"; "to_excel"; "to_json";
   "memmap"; "mkdir"; "makedirs"; "remove"; "unlink"; "rename"; "rmdir";
   "rmtree"; "truncate"; "commit"; "executemany"; "executescript"].

Definition store_modules : list string :=
  ["os"; "shutil"; "io"; "pickle"; "cPickle"; "shelve"; "sqlite3"; "dbm";
   "anydbm"; "tempfile"; "h5py"; "joblib"; "csv"; "json"; "gzip"; "zipfile";
   "tarfile"; "subprocess"].

Definition from_module_b (roots : list string) (o : origin) : bool :=
  match o with
  | Imported m => mem (root m) roots
  | _ => false
  end.

(** A call that opens, writes, saves or pickles. *)
Definition store_operation (ns : origins) (p : list string) : bool :=
  mem (last_name p) store_api
  || from_module_b store_modules (origin_of ns (receiver p)).

(** The special lines that stay in the kernel's memory: the choice of the
    inline display backend, the loading and the setting of the
    [autoreload] extension, and any help request.  Every other special
    line, a shell escape or a cell magic among them, is taken to reach
    outside. *)
Definition memory_specials : list (list token) :=
  [ [OP "%"; NAME "matplotlib"; NAME "inline"];
    [OP "%"; NAME "load_ext"; NAME "autoreload"];
    [OP "%"; NAME "autoreload"; NUMBER "2"] ].

Definition outside_special (ts : list token) : bool :=
  match ts with
  | t :: _ =>
      is_magic ts && negb (is_op "?" t) && negb (tokens_mem ts memory_specials)
  | [] => false
  end.

Section Stores.

(** The files and stores outside the kernel, and what a store operation
    and a special line do to them: anything. *)
Variable store : Type.
Variable write : list string -> list token -> store -> store.
Variable special : list token -> store -> store.

(** What a statement does to the stores when it runs: a special line that
    reaches outside, the import of a module of file or store operations,
    and every call that is a store operation act on them. *)
Definition exec_store (ns : origins) (s : stmt) (st : store) : store :=
  if is_magic (toks s)
  then if outside_special (toks s) then special (toks s) st else st
  else fold_left (fun st c => if store_operation ns (fst c)
                              then write (fst c) (snd c) st else st)
                 (call_sites s)
                 (fold_left (fun st i => if mem (root (module_of i)) store_modules
                                         then write (module_of i) [] st else st)
                            (imports_of (toks s)) st).

(** The statements run in order; each sees the bindings of those before. *)
Fixpoint run_store (ns : origins) (ss : list stmt) (st : store) : store :=
  match ss with
  | [] => st
  | s :: rest => run_store (stmt_origins ns s ++ ns) rest (exec_store ns s st)
  end.

End Stores.

(** No statement of [s] asks anything of the stores. *)
Definition store_silent_b (pre : list stmt) (s : stmt) : bool :=
  if is_magic (toks s) then negb (outside_special (toks s))
  else forallb (fun i => negb (mem (root (module_of i)) store_modules))
               (imports_of (toks s))
       && forallb (fun c => negb (store_operation (origins_after [] pre) (fst c)))
                  (call_sites s).

(** ** Streams of execution *)








Section Streams.

(** The streams of execution of a session, and what a spawning call and a
    special line do to them: anything. *)
Variable streams : Type.
Variable spawn : list string -> list token -> streams -> streams.
Variable special : list token -> streams -> streams.



End Streams.

(** * The computations of the code cells *)

(** What the statements of the code cells compute, on the data the
    library hands them: the slices, shapes and loops are the notebooks',
    the library's arrays and objects are parameters. *)

(** [f] on every element, in order; the first failure is the result. *)
Fixpoint traverse {B C : Type} (f : B -> option C) (l : list B)
  : option (list C) :=
  match l with
  | [] => Some []
  | x :: r =>
      match f x with
      | None => None
      | Some y => option_map (cons y) (traverse f r)
      end
  end.

(** [np.prod] of a tuple of axis lengths. *)
Definition np_prod (shape : list nat) : nat := fold_right Nat.mul 1 shape.

(** [a.reshape(target)] on an array of the shape [shape]: NumPy raises
    ValueError unless the two shapes hold the same number of elements. *)
Definition reshape (shape target : list nat) : option (list nat) :=
  if np_prod shape =? np_prod target then Some target else None.

(** [np.arange(a, b)] on integers. *)
Definition arange (a b : nat) : list nat := seq a (b - a).

Module PythonIntro.

(** The slices of the last code cell of python_intro
    (python_intro-checkpoint.ipynb, lines 309 to 318). *)

(** [a[:-20]] along the first axis: everything but the last 20 entries,
    nothing when there are at most 20. *)
Definition all_but_last_20 {B : Type} (a : list B) : list B :=
  firstn (length a - 20) a.

(** [a[-20:]] along the first axis: the last 20 entries, all of them when
    there are at most 20. *)
Definition last_20 {B : Type} (a : list B) : list B :=
  skipn (length a - 20) a.

Section Diabetes.

(** The numbers of the dataset. *)
Variable R : Type.

(** A two-axis array such as [diabetes.data]: its rows and the length of
    its second axis, which the array has even without rows. *)
Record array2 : Type := {
  n_cols : nat;
  rows : list (list R)
}.

Definition well_formed (a : array2) : Prop :=
  Forall (fun r => length r = n_cols a) (rows a).

(** [diabetes_X = diabetes.data[:, np.newaxis]]: every row becomes a
    plane of one row. *)
Definition diabetes_X (data : array2) : list (list (list R)) :=
  map (fun r => [r]) (rows data).

(** [diabetes_X_temp = diabetes_X[:, :, 2]]: the entry of index 2 of every
    row of every plane; IndexError when the last axis is shorter than 3. *)
Definition diabetes_X_temp (data : array2) : option (list (list R)) :=
  if 2 <? n_cols data
  then traverse (traverse (fun r => nth_error r 2)) (diabetes_X data)
  else None.

Definition diabetes_X_train (data : array2) : option (list (list R)) :=
  option_map all_but_last_20 (diabetes_X_temp data).

Definition diabetes_X_test (data : array2) : option (list (list R)) :=
  option_map last_20 (diabetes_X_temp data).

Definition diabetes_y_train (target : list R) : list R :=
  all_but_last_20 target.

Definition diabetes_y_test (target : list R) : list R :=
  last_20 target.

End Diabetes.

End PythonIntro.

Module Homogenization.

(** The computations of the homogenization notebook (part_000, lines 31 to
    33, 50, 106, 120 and 158 to 163). *)

Definition grain_size : list (nat * nat) :=
  [(15, 2); (2, 15); (7, 7); (8, 3); (3, 9); (2, 2)].

(** [n_samples = [sample_size] * 6]. *)
Definition n_samples (sample_size : nat) : list nat := repeat sample_size 6.

(** The entries of [l] at the offsets [i], [i + step], [i + 2 step], ... *)
Fixpoint pick_every {B : Type} (step i : nat) (l : list B) : list B :=
  match l with
  | [] => []
  | x :: r =>
      match i with
      | 0 => x :: pick_every step (step - 1) r
      | S i' => pick_every step i' r
      end
  end.

(** [X_examples = X[::sample_size]]; a slice step of zero raises
    ValueError. *)
Definition X_examples {B : Type} (X : list B) (sample_size : nat)
  : option (list B) :=
  if sample_size =? 0 then None else Some (pick_every sample_size 0 X).

(** [flat_shape = (X.shape[0],) + (np.prod(X.shape[1:]),)]; an array
    without axes has no [shape[0]]: IndexError. *)
Definition flat_shape (shape : list nat) : option (list nat) :=
  match shape with
  | [] => None
  | n :: rest => Some [n; np_prod rest]
  end.

(** [params_to_tune]: the values the grid search tries for each
    parameter. *)
Definition params_to_tune : list (string * list nat) :=
  [("degree", arange 1 4); ("n_components", arange 1 8)].

(** The values [params_to_tune] gives for a parameter. *)
Definition values_of (k : string) : list nat :=
  match find (fun kv => String.eqb k (fst kv)) params_to_tune with
  | Some (_, vs) => vs
  | None => []
  end.

(** The combinations of [params_to_tune], one dictionary per pair of
    values: what a grid search over [params_to_tune] scores. *)
Definition combinations : list (list (string * nat)) :=
  flat_map (fun d => map (fun c => [("degree", d); ("n_components", c)])
                         (values_of "n_components"))
           (values_of "degree").

(** [d[k]] on a dictionary; [None] is KeyError. *)
Fixpoint lookup (k : string) (d : list (string * nat)) : option nat :=
  match d with
  | [] => None
  | (k', v) :: r => if String.eqb k k' then Some v else lookup k r
  end.

(** [l[2:-1]]: the entries from index 2 up to the last one, excluded. *)
Definition slice_2_to_last {B : Type} (l : list B) : list B :=
  skipn 2 (firstn (length l - 1) l).

(** The dictionary gives the degree [d]. *)
Definition has_degree (d : nat) (p : list (string * nat)) : bool :=
  match lookup "degree" p with
  | Some v => v =? d
  | None => false
  end.

Section GridScores.

(** What an entry of [gs.grid_scores_] holds beside its parameters. *)
Variable Score : Type.

Record grid_score : Type := {
  parameters : list (string * nat);
  validation_scores : Score
}.

(** [[x for x in gs.grid_scores_ if x.parameters['degree'] == d]]. *)
Fixpoint select_degree (d : nat) (grid : list grid_score)
  : option (list grid_score) :=
  match grid with
  | [] => Some []
  | x :: r =>
      match lookup "degree" (parameters x) with
      | None => None
      | Some v =>
          option_map (fun l => if v =? d then x :: l else l)
                     (select_degree d r)
      end
  end.

(** [gs_deg_1], [gs_deg_2], [gs_deg_3]: the selection, sliced by
    [[2:-1]]. *)
Definition gs_deg (d : nat) (grid : list grid_score)
  : option (list grid_score) :=
  option_map slice_2_to_last (select_degree d grid).

End GridScores.

(** A grid of five scores of degree 2, on which the curve is tried. *)
Definition five_scores : list (grid_score nat) :=
  map (fun c => {| parameters := [("degree", 2); ("n_components", c)];
                   validation_scores := c |})
      [1; 2; 3; 4; 5].

End Homogenization.

Module CahnHilliard.

(** The computations of the Cahn-Hilliard notebook (cahn_hilliard.ipynb,
    lines 133 to 134, 270 to 273, 291 to 296 and 361 to 364). *)

(** [split_shape = (X.shape[0],) + (np.product(X.shape[1:]),)]. *)
Definition split_shape (shape : list nat) : option (list nat) :=
  match shape with
  | [] => None
  | n :: rest => Some [n; np_prod rest]
  end.

(** The two arrays handed to [train_test_split]:
    [X.reshape(split_shape)] and [y.reshape(split_shape)], as shapes. *)
Definition split_inputs (x_shape y_shape : list nat)
  : option (list nat * list nat) :=
  match split_shape x_shape with
  | None => None
  | Some target =>
      match reshape x_shape target, reshape y_shape target with
      | Some a, Some b => Some (a, b)
      | _, _ => None
      end
  end.

Section TimeMarching.

(** The library: the concentration fields, the simulation object and the
    model.  [run s phi] is the simulation object after [s.run(phi)],
    [response s] its attribute [response], [predict m phi] the value of
    [m.predict(phi)] and the model after the call.  The simulation object
    and the model share no state. *)
Variables field sim mdl : Type.
Variable run : sim -> field -> sim.
Variable response : sim -> field.
Variable predict : mdl -> field -> field * mdl.

(** The names the time loop reads and binds. *)
Record kernel : Type := {
  ch_sim : sim;
  model : mdl;
  phi_sim : field;
  phi_pred : field
}.

(** [phi_sim = phi0.copy()] and [phi_pred = phi0.copy()]. *)
Definition start (s : sim) (m : mdl) (phi0 : field) : kernel :=
  {| ch_sim := s; model := m; phi_sim := phi0; phi_pred := phi0 |}.

(** The body of the loop:
    [ch_sim.run(phi_sim)], [phi_sim = ch_sim.response],
    [phi_pred = model.predict(phi_pred)]. *)
Definition body (k : kernel) : kernel :=
  let s := run (ch_sim k) (phi_sim k) in
  let (p, m) := predict (model k) (phi_pred k) in
  {| ch_sim := s; model := m; phi_sim := response s; phi_pred := p |}.

(** [for ii in range(time_steps): ...]. *)
Fixpoint march (time_steps : nat) (k : kernel) : kernel :=
  match time_steps with
  | 0 => k
  | S n => march n (body k)
  end.

End TimeMarching.

End CahnHilliard.

Module CheckerBoard.

(** [center = (a.shape[1] + 1) / 2] in Python 2, where [/] on integers is
    the floor division (checker_board.ipynb, line 182); [n] is the length
    of the axis. *)
Definition center (n : nat) : nat := (n + 1) / 2.

End CheckerBoard.

(** * Soundness of the checks *)

Lemma mem_In (x : string) (l : list string) : mem x l = true <-> In x l.
Proof.
  unfold mem. rewrite existsb_exists. split.
  - intros [y [Hy He]]. apply String.eqb_eq in He. now subst.
  - intros H. exists x. split; [assumption | apply String.eqb_refl].
Qed.

Lemma mem_false (x : string) (l : list string) : mem x l = false -> ~ In x l.
Proof.
  intros H Hin. apply mem_In in Hin. congruence.
Qed.

Lemma In_names_of (x : string) (ts : list token) :
  In (NAME x) ts -> In x (names_of ts).
Proof.
  intros H. unfold names_of. apply in_flat_map.
  exists (NAME x). split; [assumption | now left].
Qed.

Lemma forallb_prefix_spec {A : Type} (p : list A -> A -> bool) (l : list A) :
  forall pre0, forallb_prefix p pre0 l = true ->
  forall pre x post, l = pre ++ x :: post -> p (pre0 ++ pre) x = true.
Proof.
  induction l as [|y l IH]; intros pre0 H pre x post E.
  - destruct pre; discriminate.
  - simpl in H. apply andb_true_iff in H. destruct H as [Hy Hl].
    destruct pre as [|z pre]; simpl in E; injection E as -> ->.
    + now rewrite app_nil_r.
    + specialize (IH (pre0 ++ [z]) Hl pre x post eq_refl).
      now rewrite <- app_assoc in IH.
Qed.

Lemma starts_with_append (p b : string) : starts_with p (String.append p b) = true.
Proof.
  induction p as [|c p IH]; simpl; [reflexivity|].
  now rewrite Ascii.eqb_refl.
Qed.

Lemma contains_complete (p s : string) : substring_of p s -> contains p s = true.
Proof.
  intros [a [b ->]]. induction a as [|c a IH]; simpl.
  - destruct (String.append p b) eqn:E; simpl.
    + rewrite <- E, starts_with_append. reflexivity.
    + rewrite <- E, starts_with_append. reflexivity.
  - rewrite IH. apply orb_true_r.
Qed.

Lemma avoids_names_spec (banned : list string) (ss : list stmt) :
  avoids_names banned ss = true ->
  forall s x, In s ss -> In x banned -> ~ In (NAME x) (toks s).
Proof.
  unfold avoids_names. intros H s x Hs Hx Hin.
  rewrite forallb_forall in H. specialize (H s Hs).
  rewrite forallb_forall in H. specialize (H x (In_names_of _ _ Hin)).
  apply mem_In in Hx. rewrite Hx in H. discriminate.
Qed.

Lemma from_import_b_spec (roots : list string) (f : string) (s : stmt) :
  from_import_b roots f s = true ->
  exists m, imports_from s m f /\ In (root m) roots.
Proof.
  unfold from_import_b. rewrite existsb_exists.
  intros [i [Hi Hb]]. destruct i as [m a | m names]; [discriminate|].
  apply andb_true_iff in Hb. destruct Hb as [Hr Hf].
  exists m. split.
  - exists names. split; [assumption | now apply mem_In].
  - now apply mem_In.
Qed.

Lemma calls_resolved_spec (allowed : list string) (nb : notebook) :
  forallb_prefix (calls_resolved_b allowed) [] (stmts nb) = true ->
  forall pre s post f,
    stmts nb = pre ++ s :: post -> In f (bare_calls s) ->
    In f builtins \/ In f allowed \/
    exists s' m, In s' pre /\ imports_from s' m f /\ In (root m) called_roots.
Proof.
  intros H pre s post f E Hf.
  pose proof (forallb_prefix_spec _ _ _ H pre s post E) as Hs.
  simpl in Hs. unfold calls_resolved_b in Hs.
  rewrite forallb_forall in Hs. specialize (Hs f Hf).
  apply orb_true_iff in Hs. destruct Hs as [Hs | Hs].
  - apply orb_true_iff in Hs. destruct Hs as [Hs | Hs].
    + left. now apply mem_In.
    + right. left. now apply mem_In.
  - right. right. apply existsb_exists in Hs. destruct Hs as [s' [Hin Hb]].
    destruct (from_import_b_spec _ _ _ Hb) as [m [Him Hr]].
    exists s', m. auto.
Qed.

Lemma imports_within_spec (roots : list string) (ss : list stmt) :
  imports_within roots ss = true ->
  forall s i, In s ss -> In i (imports_of (toks s)) ->
              In (root (module_of i)) roots.
Proof.
  unfold imports_within. intros H s i Hs Hi.
  rewrite forallb_forall in H. specialize (H s Hs).
  rewrite forallb_forall in H. apply mem_In. now apply H.
Qed.


Lemma heads_ok_spec (ss : list stmt) :
  heads_ok ss = true ->
  forall s k, In s ss -> head_name s = Some k -> ~ In k conditional_heads.
Proof.
  unfold heads_ok. intros H s k Hs Hk.
  rewrite forallb_forall in H. specialize (H s Hs). rewrite Hk in H.
  apply mem_false. now apply negb_true_iff.
Qed.

Lemma path_eqb_eq (p q : list string) : path_eqb p q = true -> p = q.
Proof.
  revert q. induction p as [|x p IH]; intros [|y q] H; simpl in H;
    try discriminate; [reflexivity|].
  apply andb_true_iff in H. destruct H as [Hx Hp].
  apply String.eqb_eq in Hx. subst. f_equal. now apply IH.
Qed.

Lemma path_mem_In (p : list string) (l : list (list string)) :
  path_mem p l = true -> In p l.
Proof.
  unfold path_mem. rewrite existsb_exists. intros [q [Hq He]].
  apply path_eqb_eq in He. now subst.
Qed.

Lemma modules_within_spec (ms : list (list string)) (ss : list stmt) :
  modules_within ms ss = true ->
  forall s i, In s ss -> In i (imports_of (toks s)) -> In (module_of i) ms.
Proof.
  unfold modules_within. intros H s i Hs Hi.
  rewrite forallb_forall in H. specialize (H s Hs).
  rewrite forallb_forall in H. apply path_mem_In. now apply H.
Qed.

Lemma calls_within_spec (ps : list (list string)) (ss : list stmt) :
  calls_within ps ss = true ->
  forall s p, In s ss -> In p (calls s) -> In p ps.
Proof.
  unfold calls_within. intros H s p Hs Hp.
  rewrite forallb_forall in H. specialize (H s Hs).
  rewrite forallb_forall in H. apply path_mem_In. now apply H.
Qed.



(** A stub cell stops the run where it stands: none of its statements
    runs and the namespace is the one the cell found. *)
Lemma run_cells_stub (ix : nat) (ns : list string) (src : list string)
      (rest : list cell) :
  stub_cell ix src = true ->
  run_cells ix ns (code src :: rest) = (SyntaxErrorAt ix, ns).
Proof.
  intros H. simpl. now rewrite H.
Qed.

Lemma first_stub_from_ge (cs : list cell) :
  forall ix0 ix, first_stub_from ix0 cs = Some ix -> ix0 <= ix.
Proof.
  induction cs as [|c cs IH]; intros ix0 ix H; simpl in H.
  - discriminate.
  - destruct c as [n | src].
    + apply IH in H. lia.
    + destruct (stub_cell ix0 src).
      * injection H as <-. lia.
      * apply IH in H. lia.
Qed.

(** No run gets past the first stub cell: it stops there with a syntax
    error, or in a cell before it with a name error. *)
Lemma run_cells_stops_by_first_stub (cs : list cell) :
  forall ix0 ns ix,
    first_stub_from ix0 cs = Some ix ->
    fst (run_cells ix0 ns cs) = SyntaxErrorAt ix
    \/ exists j x, j < ix /\ fst (run_cells ix0 ns cs) = NameErrorAt j x.
Proof.
  induction cs as [|c cs IH]; intros ix0 ns ix H; simpl in H.
  - discriminate.
  - destruct c as [n | src]; simpl.
    + now apply IH.
    + destruct (stub_cell ix0 src) eqn:Hstub.
      * injection H as <-. now left.
      * destruct (exec_stmts ns (cell_stmts ix0 src)) as [ns' [x|]] eqn:He.
        -- right. exists ix0, x. split; [|reflexivity].
           apply first_stub_from_ge in H. lia.
        -- now apply IH.
Qed.

Section ReplayFacts.

Variables gen out : Type.
Variable seeded : nat -> gen.
Variable draw : list string -> nat -> gen -> out * gen.

(** With literal seeds only, every sequence of events has a result. *)
Lemma replay_total (evs : list rng_event) :
  seeds_literal evs = true ->
  forall g, exists vs, replay gen out seeded draw g evs = Some vs.
Proof.
  induction evs as [|e evs IH]; intros H g; simpl.
  - now exists [].
  - simpl in H. destruct e as [[k|] | f c].
    + apply IH. exact H.
    + discriminate.
    + destruct (draw f c g) as [v g'].
      destruct (IH H g') as [vs ->]. now exists (v :: vs).
Qed.

(** Once a literal seed comes first, the state the kernel started with
    does not matter. *)
Lemma replay_seeded (evs : list rng_event) :
  seeded_first evs = true ->
  forall g1 g2,
    replay gen out seeded draw g1 evs = replay gen out seeded draw g2 evs.
Proof.
  intros H g1 g2. destruct evs as [|[[k|] | f c] evs]; simpl in *;
    try reflexivity; discriminate.
Qed.

End ReplayFacts.

Lemma seeded_before_spec (evs : list rng_event) :
  forallb_prefix seeded_before_b [] evs = true ->
  forall pre f c post,
    evs = pre ++ Draw f c :: post ->
    exists k, In (Seed (Some k)) pre /\ In k seed_constants.
Proof.
  intros H pre f c post E.
  pose proof (forallb_prefix_spec _ _ _ H pre _ post E) as Hs.
  simpl in Hs. apply existsb_exists in Hs. destruct Hs as [e [He Hb]].
  destruct e as [[k|] | ]; try discriminate.
  exists k. split; [assumption|].
  unfold literal_seed_b in Hb. apply existsb_exists in Hb.
  destruct Hb as [n [Hn Hk]].
  apply Nat.eqb_eq in Hk. now subst.
Qed.


(** ** Soundness of the checks on origins, specials and effects *)

Lemma token_eqb_eq (a b : token) : token_eqb a b = true -> a = b.
Proof.
  destruct a, b; simpl; intros H; try discriminate;
    apply String.eqb_eq in H; now subst.
Qed.

Lemma tokens_eqb_eq (p q : list token) : tokens_eqb p q = true -> p = q.
Proof.
  revert q. induction p as [|a p IH]; intros [|b q] H; simpl in H;
    try discriminate; [reflexivity|].
  apply andb_true_iff in H. destruct H as [Ha Hp].
  apply token_eqb_eq in Ha. subst. f_equal. now apply IH.
Qed.

Lemma tokens_mem_In (ts : list token) (l : list (list token)) :
  tokens_mem ts l = true -> In ts l.
Proof.
  unfold tokens_mem. rewrite existsb_exists. intros [q [Hq He]].
  apply tokens_eqb_eq in He. now subst.
Qed.

Lemma path_eqb_refl (p : list string) : path_eqb p p = true.
Proof.
  induction p as [|x p IH]; simpl; [reflexivity|].
  now rewrite String.eqb_refl.
Qed.

Lemma In_path_mem (p : list string) (l : list (list string)) :
  In p l -> path_mem p l = true.
Proof.
  intros H. unfold path_mem. apply existsb_exists.
  exists p. split; [assumption | apply path_eqb_refl].
Qed.

Lemma In_texts_of (x : string) (ts : list token) :
  In (NAME x) ts \/ In (STR x) ts -> In x (texts_of ts).
Proof.
  intros [H | H]; unfold texts_of; apply in_flat_map;
    [exists (NAME x) | exists (STR x)]; (split; [assumption | now left]).
Qed.

Lemma texts_avoid_spec (words : list string) (ss : list stmt) :
  texts_avoid words ss = true ->
  forall s x w, In s ss -> In (NAME x) (toks s) \/ In (STR x) (toks s) ->
                In w words -> ~ substring_of w x.
Proof.
  unfold texts_avoid. intros H s x w Hs Hx Hw Hsub.
  rewrite forallb_forall in H. specialize (H s Hs).
  rewrite forallb_forall in H. specialize (H x (In_texts_of _ _ Hx)).
  rewrite forallb_forall in H. specialize (H w Hw).
  rewrite (contains_complete _ _ Hsub) in H. discriminate.
Qed.

Lemma origins_after_snoc (ns : origins) (pre : list stmt) (s : stmt) :
  origins_after ns (pre ++ [s])
  = stmt_origins (origins_after ns pre) s ++ origins_after ns pre.
Proof.
  unfold origins_after. now rewrite fold_left_app.
Qed.

Lemma traced_b_spec (o : origin) : traced_b o = true -> traced o.
Proof.
  unfold traced, traced_b. destruct o as [m | | | |]; intros H;
    try discriminate; auto.
  left. exists m. split; [reflexivity | now apply path_mem_In].
Qed.

Lemma calls_traced_spec (nb : notebook) :
  forallb_prefix calls_traced_b [] (stmts nb) = true ->
  forall pre s post p,
    stmts nb = pre ++ s :: post -> In p (calls s) ->
    traced (origin_of (origins_after [] pre) (receiver p)).
Proof.
  intros H pre s post p E Hp.
  pose proof (forallb_prefix_spec _ _ _ H pre s post E) as Hs.
  simpl in Hs. unfold calls_traced_b in Hs.
  rewrite forallb_forall in Hs. apply traced_b_spec. now apply Hs.
Qed.

Lemma reads_traced_spec (nb : notebook) :
  forallb_prefix reads_traced_b [] (stmts nb) = true ->
  forall pre s post x m,
    stmts nb = pre ++ s :: post -> In x (uses s) ->
    origin_of (origins_after [] pre) x = Imported m -> In m corpus_modules.
Proof.
  intros H pre s post x m E Hx Ho.
  pose proof (forallb_prefix_spec _ _ _ H pre s post E) as Hs.
  simpl in Hs. unfold reads_traced_b in Hs.
  rewrite forallb_forall in Hs. specialize (Hs x Hx). rewrite Ho in Hs.
  now apply path_mem_In.
Qed.






Lemma specials_listed_spec (ss : list stmt) :
  specials_listed ss = true ->
  forall s, In s ss -> is_magic (toks s) = true -> In (toks s) special_lines.
Proof.
  unfold specials_listed. intros H s Hs Hm.
  rewrite forallb_forall in H. specialize (H s Hs). rewrite Hm in H.
  now apply tokens_mem_In.
Qed.

Lemma branches_listed_spec (ss : list stmt) :
  branches_listed ss = true ->
  forall s t, In s ss -> In t (toks s) -> branching_token t = true ->
              exists target k,
                In (target, k) degree_filters
                /\ toks s = degree_filter target k.
Proof.
  unfold branches_listed. intros H s t Hs Ht Hb.
  rewrite forallb_forall in H. specialize (H s Hs).
  assert (Hex : existsb branching_token (toks s) = true).
  { apply existsb_exists. now exists t. }
  rewrite Hex in H. cbn [negb orb] in H. unfold is_degree_filter in H.
  apply existsb_exists in H. destruct H as [[target k] [Hin He]].
  exists target, k. split; [assumption | now apply tokens_eqb_eq].
Qed.

Lemma in_of_for_spec (ts : list token) :
  in_of_for ts = true ->
  forall pre post, ts = pre ++ NAME "in" :: post ->
                   exists pre' v, pre = pre' ++ [NAME "for"; NAME v].
Proof.
  unfold in_of_for. intros H pre post E.
  pose proof (forallb_prefix_spec _ _ _ H pre _ post E) as Hs.
  simpl in Hs. unfold for_target in Hs.
  destruct (rev pre) as [|[v| | |] [|[f| | |] r]] eqn:Er; try discriminate.
  apply andb_true_iff in Hs. destruct Hs as [Hf _].
  apply String.eqb_eq in Hf. subst f.
  exists (rev r), v.
  rewrite <- (rev_involutive pre), Er. simpl. now rewrite <- app_assoc.
Qed.






Lemma calls_in_b_spec (p : list string) (nb : notebook) :
  calls_in nb p -> calls_in_b p nb = true.
Proof.
  intros [s [Hs Hp]]. unfold calls_in_b. apply existsb_exists.
  exists s. split; [assumption | now apply In_path_mem].
Qed.

Lemma fits_on_b_spec (x : string) (nb : notebook) :
  fits_on nb x -> fits_on_b x nb = true.
Proof.
  intros [s [p [args [Hs [Hc [Hl Hx]]]]]]. unfold fits_on_b.
  apply existsb_exists. exists s. split; [assumption|].
  apply existsb_exists. exists (p, args). split; [assumption|]. simpl.
  rewrite Hl, String.eqb_refl. simpl.
  apply mem_In. now apply In_names_of.
Qed.

Lemma forallb_prefix_app {A : Type} (p : list A -> A -> bool) (a b : list A) :
  forall pre,
    forallb_prefix p pre (a ++ b) = true ->
    forallb_prefix p pre a = true /\ forallb_prefix p (pre ++ a) b = true.
Proof.
  induction a as [|x a IH]; intros pre H; simpl in *.
  - rewrite app_nil_r. auto.
  - apply andb_true_iff in H. destruct H as [Hx Ha].
    destruct (IH _ Ha) as [H1 H2]. rewrite Hx, H1.
    split; [reflexivity|]. now rewrite <- app_assoc in H2.
Qed.

Lemma stmts_from_app (cs1 cs2 : list cell) :
  forall ix,
    stmts_from ix (cs1 ++ cs2)
    = stmts_from ix cs1 ++ stmts_from (ix + length cs1) cs2.
Proof.
  induction cs1 as [|c cs1 IH]; intros ix; simpl.
  - now rewrite Nat.add_0_r.
  - destruct c as [n | src]; rewrite IH, Nat.add_succ_r; simpl;
      [reflexivity | now rewrite app_assoc].
Qed.

(** The statements of a cell stand in the notebook after those of the
    cells before it. *)
Lemma stmts_of_cell (nb : notebook) (cs1 cs2 : list cell) (src : list string) :
  cells nb = cs1 ++ code src :: cs2 ->
  stmts nb = stmts_from 0 cs1
             ++ cell_stmts (length cs1) src
             ++ stmts_from (S (length cs1)) cs2.
Proof.
  intros E. unfold stmts. rewrite E, stmts_from_app. reflexivity.
Qed.

Lemma forallb_prefix_cell (p : list stmt -> stmt -> bool) (nb : notebook)
      (cs1 cs2 : list cell) (src : list string) :
  forallb_prefix p [] (stmts nb) = true ->
  cells nb = cs1 ++ code src :: cs2 ->
  forallb_prefix p (stmts_from 0 cs1) (cell_stmts (length cs1) src) = true.
Proof.
  intros H E. rewrite (stmts_of_cell _ _ _ _ E) in H.
  apply forallb_prefix_app in H. destruct H as [_ H]. simpl in H.
  apply forallb_prefix_app in H. now destruct H as [H _].
Qed.

Section StoreFacts.

Variable store : Type.
Variable write : list string -> list token -> store -> store.
Variable special : list token -> store -> store.

Lemma fold_silent {A : Type} (p : A -> bool) (f : A -> store -> store)
      (l : list A) (st : store) :
  forallb (fun c => negb (p c)) l = true ->
  fold_left (fun st c => if p c then f c st else st) l st = st.
Proof.
  revert st. induction l as [|c l IH]; intros st H; simpl; [reflexivity|].
  simpl in H. apply andb_true_iff in H. destruct H as [Hc Hl].
  apply negb_true_iff in Hc. rewrite Hc. now apply IH.
Qed.

(** A statement that asks nothing of the stores leaves them as they are. *)
Lemma exec_store_silent (pre : list stmt) (s : stmt) (st : store) :
  store_silent_b pre s = true ->
  exec_store store write special (origins_after [] pre) s st = st.
Proof.
  unfold store_silent_b, exec_store. intros H.
  destruct (is_magic (toks s)).
  - apply negb_true_iff in H. now rewrite H.
  - apply andb_true_iff in H. destruct H as [Hi Hc].
    rewrite (fold_silent (fun i => mem (root (module_of i)) store_modules)
                         (fun i => write (module_of i) []) _ _ Hi).
    now apply (fold_silent (fun c => store_operation (origins_after [] pre) (fst c))
                           (fun c => write (fst c) (snd c))).
Qed.

Lemma run_store_silent (l : list stmt) :
  forall pre st,
    forallb_prefix store_silent_b pre l = true ->
    run_store store write special (origins_after [] pre) l st = st.
Proof.
  induction l as [|s l IH]; intros pre st H; simpl; [reflexivity|].
  simpl in H. apply andb_true_iff in H. destruct H as [Hs Hl].
  rewrite (exec_store_silent pre s st Hs).
  rewrite <- origins_after_snoc. now apply IH.
Qed.

End StoreFacts.

Section StreamFacts.

Variable streams : Type.
Variable spawn : list string -> list token -> streams -> streams.
Variable special : list token -> streams -> streams.



End StreamFacts.

(** A statement that asks nothing of the stores holds no store operation. *)
Lemma store_silent_calls (pre : list stmt) (s : stmt) (p : list string) :
  store_silent_b pre s = true -> In p (calls s) ->
  store_operation (origins_after [] pre) p = false.
Proof.
  unfold store_silent_b, calls, call_sites. intros H Hp.
  destruct (is_magic (toks s)); [destruct Hp|].
  apply andb_true_iff in H. destruct H as [_ H].
  apply in_map_iff in Hp. destruct Hp as [c [<- Hc]].
  rewrite forallb_forall in H. apply negb_true_iff. now apply H.
Qed.

(** * The notebooks of the corpus, and proof tools *)

Lemma all_notebooks_eq :
  all_notebooks =
  [elasticity_2D; elasticity_2D_3phase; checker_board; cahn_hilliard;
   python_intro; part_000].
Proof. reflexivity. Qed.

(** Case analysis on the notebooks of the corpus. *)
Ltac each_notebook H :=
  rewrite all_notebooks_eq in H;
  destruct H as [<- | [<- | [<- | [<- | [<- | [<- | []]]]]]].

(** Membership in the corpus. *)
Ltac member :=
  unfold all_notebooks, corpus; simpl;
  repeat (first [left; reflexivity | right]).

(** Decides a closed check by evaluation. *)
Ltac by_evaluation := vm_compute; reflexivity.

(** Finds a concrete element in a concrete list. *)
Ltac pick :=
  lazymatch goal with
  | |- In (nth _ ?l _) ?l => apply nth_In; vm_compute; lia
  | |- _ => vm_compute; repeat (first [left; reflexivity | right])
  end.

(** * The analyses on lines of the corpus *)

Example lex_assignment :
  lex "dt = 1e-2" = [NAME "dt"; OP "="; NUMBER "1e-2"].
Proof. reflexivity. Qed.

Example lex_comment :
  lex "# regr.fit(diabetes_X_train, diabetes_y_train)" = [].
Proof. reflexivity. Qed.

Example lex_comparison :
  lex "if x.parameters['degree'] == 1][2:-1]"
  = [NAME "if"; NAME "x"; OP "."; NAME "parameters"; OP "["; STR "degree";
     OP "]"; OP "=="; NUMBER "1"; OP "]"; OP "["; NUMBER "2"; OP ":";
     OP "-"; NUMBER "1"; OP "]"].
Proof. reflexivity. Qed.

(** A call that spans three physical lines is one statement. *)
Example join_open_bracket :
  map toks
      (cell_stmts 0 ["size = (n, n)";
                     EmptyString;
                     "= f(a=a,";
                     "      b=b,";
                     "      c=c)"])
  = [ [NAME "size"; OP "="; OP "("; NAME "n"; OP ","; NAME "n"; OP ")"];
      [OP "="; NAME "f"; OP "("; NAME "a"; OP "="; NAME "a"; OP ",";
       NAME "b"; OP "="; NAME "b"; OP ","; NAME "c"; OP "="; NAME "c";
       OP ")"] ].
Proof. reflexivity. Qed.

Example calls_of_line :
  calls (stmt_of_line "phi0 = np.random.normal(0, 1e-9, (1, n, n))")
  = [["np"; "random"; "normal"]].
Proof. reflexivity. Qed.

Example calls_nested :
  calls (stmt_of_line "model = MKSLocalizationModel(basis=PrimitiveBasis(6, [-1, 1]))")
  = [["MKSLocalizationModel"]; ["PrimitiveBasis"]].
Proof. reflexivity. Qed.

Example import_alias :
  imports_of (lex "import matplotlib.pyplot as plt")
  = [ImportModule ["matplotlib"; "pyplot"] (Some "plt")].
Proof. reflexivity. Qed.

Example import_from :
  imports_of (lex "from sklearn import datasets, linear_model")
  = [FromImport ["sklearn"]
                [("datasets", "datasets"); ("linear_model", "linear_model")]].
Proof. reflexivity. Qed.

Example import_relative :
  imports_of (lex "from .bases import PrimitiveBasis")
  = [FromImport ["."; "bases"] [("PrimitiveBasis", "PrimitiveBasis")]].
Proof. reflexivity. Qed.

Example binds_and_uses :
  let s := stmt_of_line "X_delta = make_delta_microstructures(n_phases=2, size=(n, n))" in
  binds s = ["X_delta"] /\ uses s = ["make_delta_microstructures"; "n"; "n"].
Proof. split; reflexivity. Qed.

Example uses_of_loop :
  let s := stmt_of_line "for ii in range(time_steps):" in
  binds s = ["ii"] /\ uses s = ["range"; "time_steps"].
Proof. split; reflexivity. Qed.

(** The three kinds of stub are rejected; the well-formed lines next to
    them are not. *)
Example stub_empty_lhs :
  syntax_invalid (stmt_of_line "= PrimitiveBasis(n_states=2, domain=[0, 1])") = true.
Proof. reflexivity. Qed.

Example stub_empty_rhs :
  syntax_invalid (stmt_of_line "X, y = ") = true.
Proof. reflexivity. Qed.

Example stub_empty_slots :
  syntax_invalid (stmt_of_line "draw_microstructure_strain(,)") = true.
Proof. reflexivity. Qed.

Example stub_missing_receiver :
  syntax_invalid (stmt_of_line "print .shape") = true.
Proof. reflexivity. Qed.

Example wellformed_tuple :
  syntax_invalid (stmt_of_line "flat_shape = (X.shape[0],) + (np.prod(X.shape[1:]),)") = false.
Proof. reflexivity. Qed.

Example wellformed_empty_call :
  syntax_invalid (stmt_of_line "model.fit()") = false.
Proof. reflexivity. Qed.

Example wellformed_relative_import :
  syntax_invalid (stmt_of_line "from .bases import PrimitiveBasis") = false.
Proof. reflexivity. Qed.

Example wellformed_magic :
  syntax_invalid (stmt_of_line "? math.log10") = false.
Proof. reflexivity. Qed.

(** Statements that only Python 2 accepts, and their neighbours that
    Python 3 compiles as well. *)
Example python2_statements :
  map (fun l => python2_statement (stmt_of_line l))
      ["print 'Center value', [0, center, center, 0]"; "exec code in scope";
       "if a <> 10L: exec code"; "if done: print total"; "raise E, msg";
       "except IOError, e:"; "mode = 0777"; "f = lambda (a, b): a";
       "def norm(a, (b, c)):"]
  = [true; true; true; true; true; true; true; true; true]
  /\ map (fun l => python2_statement (stmt_of_line l))
         ["print('R-squared'), (model.score(X_new, y_new))"; "exec('1')";
          "raise E(msg)"; "except (IOError, OSError):";
          "poissons_ratio = (0.28, 0.3)"; "dt = 01.5";
          "def norm(a, b=(1, 2)):"]
     = [false; false; false; false; false; false; false].
Proof. split; reflexivity. Qed.

(** [print] followed by the start of an operand is the statement of
    Python 2; followed by anything else it is an expression on the name
    [print] for Python 3, and [print .shape] is a stub for both. *)
Example print_statement_python2 :
  map (fun l => print_statement (stmt_of_line l))
      ["print size"; "print 'Volume fraction of black phase', [0, center, center, 0]"]
  = [true; true]
  /\ map (fun l => print_statement (stmt_of_line l))
         ["print(gs.best_estimator_)"; "print .shape"; "print"; "print -1";
          "print [0]"]
     = [false; false; false; false; false].
Proof. split; reflexivity. Qed.

(** The origins of the names at the time step of cahn_hilliard. *)
Example origins_of_time_step :
  map (origin_of (origins_after [] (firstn 42 (stmts cahn_hilliard))))
      ["ch_sim"; "model"; "phi0"; "time_steps"; "range"; "X"]
  = [Imported ["pymks"; "datasets"; "cahn_hilliard_simulation"];
     Imported ["pymks"]; Imported ["numpy"]; Inline; BuiltinName; Unbound].
Proof. by_evaluation. Qed.

(** In part_000 the model that is fitted comes from a blank. *)
Example origins_of_blanks :
  map (origin_of (origins_after [] (firstn 40 (stmts part_000))))
      ["gs"; "model"]
  = [BlankStub; BlankStub].
Proof. by_evaluation. Qed.

(** The names the notebooks read without binding them. *)
Example free_names_of_corpus :
  map (fun nb => nodup string_dec (free_names nb)) all_notebooks
  = [["X"; "strain"]; []; []; ["X"; "y"]; ["log10"; "y"];
     ["X_test"; "y_test"]].
Proof. by_evaluation. Qed.

(** The generator events of the seeded notebooks. *)
Example rng_events_elasticity_2D :
  rng_events elasticity_2D
  = [Seed (Some 99); Draw ["make_elastic_FE_strain_random"] 18;
     Draw ["make_elastic_FE_strain_random"] 27].
Proof. by_evaluation. Qed.

Example rng_events_elasticity_2D_3phase :
  rng_events elasticity_2D_3phase
  = [Seed (Some 101); Draw ["make_elastic_FE_strain_random"] 32].
Proof. by_evaluation. Qed.

Example rng_events_cahn_hilliard :
  rng_events cahn_hilliard
  = [Seed (Some 99); Draw ["make_cahn_hilliard"] 4; Seed (Some 191);
     Draw ["np"; "random"; "normal"] 20; Draw ["np"; "random"; "normal"] 26].
Proof. by_evaluation. Qed.

(** Functions called by name resolve to imports: in every notebook, a
    function called by name is a builtin or is imported, earlier in the
    same notebook, from pymks or sklearn.  The one exception is the call
    [log10(10)] of python_intro, a name the notebook never binds. *)
Lemma bare_calls_imported (nb : notebook) :
  In nb all_notebooks ->
  forall pre s post f,
    stmts nb = pre ++ s :: post -> In f (bare_calls s) ->
    In f builtins
    \/ (nb = python_intro /\ f = "log10")
    \/ exists s' m, In s' pre /\ imports_from s' m f /\ In (root m) called_roots.
Proof.
  intros Hnb pre s post f E Hf.
  each_notebook Hnb.
  5: { assert (H : forallb_prefix (calls_resolved_b ["log10"]) []
                                  (stmts python_intro) = true) by by_evaluation.
       destruct (calls_resolved_spec _ _ H pre s post f E Hf)
         as [Hb | [[<- | []] | Hi]]; auto. }
  all: match goal with
       | E : stmts ?n = _ |- _ =>
           assert (H : forallb_prefix (calls_resolved_b []) [] (stmts n) = true)
             by by_evaluation;
           destruct (calls_resolved_spec _ _ H pre s post f E Hf)
             as [Hb | [[] | Hi]]; auto
       end.
Qed.

Lemma imports_known (nb : notebook) :
  In nb all_notebooks ->
  forall s i, In s (stmts nb) -> In i (imports_of (toks s)) ->
              In (module_of i) corpus_modules.
Proof.
  intros Hnb. each_notebook Hnb; apply modules_within_spec; by_evaluation.
Qed.

Lemma calls_known (nb : notebook) :
  In nb all_notebooks ->
  forall s p, In s (stmts nb) -> In p (calls s) -> In p corpus_calls.
Proof.
  intros Hnb. each_notebook Hnb; apply calls_within_spec; by_evaluation.
Qed.

Lemma imports_external (nb : notebook) :
  In nb all_notebooks ->
  forall s i, In s (stmts nb) -> In i (imports_of (toks s)) ->
              In (root (module_of i)) external_roots.
Proof.
  intros Hnb. each_notebook Hnb; apply imports_within_spec; by_evaluation.
Qed.

(** Every special line is one of the five of [special_lines], argument
    included. *)
Lemma specials_known (nb : notebook) :
  In nb all_notebooks ->
  forall s, In s (stmts nb) -> is_magic (toks s) = true ->
            In (toks s) special_lines.
Proof.
  intros Hnb. each_notebook Hnb; apply specials_listed_spec; by_evaluation.
Qed.

(** Every call, by name or on a receiver, starts from an imported symbol,
    an object obtained from one, a builtin, or a name that is blank or
    unbound. *)
Lemma calls_traced (nb : notebook) :
  In nb all_notebooks ->
  forall pre s post p,
    stmts nb = pre ++ s :: post -> In p (calls s) ->
    traced (origin_of (origins_after [] pre) (receiver p)).
Proof.
  intros Hnb. each_notebook Hnb; apply calls_traced_spec; by_evaluation.
Qed.


(** * The claims *)



(** C2, as worded, fails: cell 8 of cahn_hilliard calls [train_test_split],
    which the same cell imports from [sklearn.cross_validation], a module
    outside the MKS library. *)
Lemma C2_counterexample : ~ calls_only_mks cahn_hilliard.
Proof.
  intros H.
  specialize (H (firstn 17 (stmts cahn_hilliard))
                (nth 17 (stmts cahn_hilliard) no_stmt)
                (skipn 18 (stmts cahn_hilliard))
                "train_test_split"
                (nth 15 (stmts cahn_hilliard) no_stmt)
                ["sklearn"; "cross_validation"]).
  assert (E : root ["sklearn"; "cross_validation"] = "pymks").
  { apply H.
    - by_evaluation.
    - pick.
    - pick.
    - exists [("train_test_split", "train_test_split")]. split; pick. }
  discriminate E.
Qed.

(** C2, amended.  What a code cell uses of the outside is an import, a call
    or an IPython special line.  Every module imported is one of thirteen
    modules of pymks, sklearn, numpy, matplotlib and math; every call is
    one of the calls of [corpus_calls] and starts from a symbol of these
    modules, an object obtained from one, a builtin, or a name that is
    blank or unbound; every function called by name is a builtin or a
    symbol imported, earlier in the same notebook, from pymks or sklearn
    (python_intro's [log10(10)], a name never bound, apart); every name
    read that holds an external object, as [np] in [np.newaxis], got it
    from an import of these modules; and every special line is
    [%matplotlib inline], [%load_ext autoreload], [%autoreload 2],
    [? math.log10] or [? np.dot]. *)
Theorem C2_external_interfaces (nb : notebook) :
  In nb all_notebooks ->
  (forall s i, In s (stmts nb) -> In i (imports_of (toks s)) ->
               In (module_of i) corpus_modules
               /\ In (root (module_of i)) external_roots)
  /\ (forall s p, In s (stmts nb) -> In p (calls s) -> In p corpus_calls)
  /\ (forall pre s post f,
         stmts nb = pre ++ s :: post -> In f (bare_calls s) ->
         In f builtins
         \/ (nb = python_intro /\ f = "log10")
         \/ exists s' m,
              In s' pre /\ imports_from s' m f /\ In (root m) called_roots)
  /\ (forall pre s post p,
         stmts nb = pre ++ s :: post -> In p (calls s) ->
         traced (origin_of (origins_after [] pre) (receiver p)))
  /\ (forall pre s post x m,
         stmts nb = pre ++ s :: post -> In x (uses s) ->
         origin_of (origins_after [] pre) x = Imported m ->
         In m corpus_modules)
  /\ (forall s, In s (stmts nb) -> is_magic (toks s) = true ->
                In (toks s) special_lines).
Proof.
  intros Hnb. split; [|split; [|split; [|split; [|split]]]].
  - intros s i Hs Hi. split.
    + now apply (imports_known nb Hnb s).
    + now apply (imports_external nb Hnb s).
  - now apply calls_known.
  - now apply bare_calls_imported.
  - now apply calls_traced.
  - each_notebook Hnb; apply reads_traced_spec; by_evaluation.
  - now apply specials_known.
Qed.

(** C2 at the help request of python_intro. *)
Lemma C2_witness :
  In python_intro all_notebooks
  /\ In (nth 3 (stmts python_intro) no_stmt) (stmts python_intro)
  /\ is_magic (toks (nth 3 (stmts python_intro) no_stmt)) = true
  /\ In (toks (nth 3 (stmts python_intro) no_stmt)) special_lines.
Proof.
  assert (H : In python_intro all_notebooks) by member.
  assert (Hs : In (nth 3 (stmts python_intro) no_stmt) (stmts python_intro))
    by pick.
  assert (Hm : is_magic (toks (nth 3 (stmts python_intro) no_stmt)) = true)
    by (vm_compute; reflexivity).
  split; [exact H|]. split; [exact Hs|]. split; [exact Hm|].
  exact (proj2 (proj2 (proj2 (proj2 (proj2
           (C2_external_interfaces python_intro H)))))
           _ Hs Hm).
Defined.
(** C3, as worded, fails twice: no notebook builds an
    [MKSHomogenizationModel] (part_000 imports the class and leaves
    [model = ] blank), and no notebook calls [fit] on the delta
    microstructures ([model.fit()] of elasticity_2D has no argument). *)
Lemma C3_counterexample :
  ~ (exists nb, In nb all_notebooks /\ calls_in nb ["MKSHomogenizationModel"])
  /\ ~ (exists nb, In nb all_notebooks /\ fits_on nb "X_delta").
Proof.
  split.
  - intros [nb [Hnb H]]. apply calls_in_b_spec in H.
    assert (F : calls_in_b ["MKSHomogenizationModel"] nb = false)
      by (each_notebook Hnb; by_evaluation).
    rewrite F in H. discriminate H.
  - intros [nb [Hnb H]]. apply fits_on_b_spec in H.
    assert (F : fits_on_b "X_delta" nb = false)
      by (each_notebook Hnb; by_evaluation).
    rewrite F in H. discriminate H.
Qed.

(** C3, amended.  The corpus sets up each of the four tasks and leaves the
    blanks to the student.  Homogenization: part_000 imports
    [MKSHomogenizationModel], leaves [model = ] blank in the same cell, and
    in cell 12 fits [model = gs.best_estimator_] with
    [model.fit(X, y, periodic_axes=[0, 1])], where [gs] is blank.
    Localization: elasticity_2D imports [MKSLocalizationModel], generates
    [X_delta] with [make_delta_microstructures], calls
    [make_elastic_FE_strain_delta] with a blank target, builds
    [model = MKSLocalizationModel(basis=)] and calls [model.fit()] without
    arguments, in this cell order.  Cahn-Hilliard: cahn_hilliard calls
    [make_cahn_hilliard] with a blank target, builds
    [ch_sim = CahnHilliardSimulation(dt=dt)] and runs
    [ch_sim.run(phi_sim)] in the body of a loop over [range(time_steps)].
    Statistics: checker_board imports [autocorrelate] and [crosscorrelate]
    from [pymks.stats] and calls each with a blank first argument and a
    blank target. *)
Theorem C3_tasks_set_up_with_blanks :
  (imports_in part_000 ["pymks"] "MKSHomogenizationModel"
   /\ (exists s, In s (stmts part_000) /\ cell_ix s = 4
                 /\ toks s = [NAME "model"; OP "="])
   /\ (exists pre s1 s2 post,
          stmts part_000 = pre ++ s1 :: s2 :: post
          /\ cell_ix s1 = 12 /\ cell_ix s2 = 12
          /\ toks s1 = [NAME "model"; OP "="; NAME "gs"; OP ".";
                        NAME "best_estimator_"]
          /\ call_sites s2
             = [(["model"; "fit"],
                 [NAME "X"; OP ","; NAME "y"; OP ","; NAME "periodic_axes";
                  OP "="; OP "["; NUMBER "0"; OP ","; NUMBER "1"; OP "]";
                  OP ")"])]
          /\ origin_of (origins_after [] (pre ++ [s1])) "model" = BlankStub))
  /\ (imports_in elasticity_2D ["pymks"] "MKSLocalizationModel"
      /\ exists s1 s2 s3 s4,
           In s1 (stmts elasticity_2D) /\ In s2 (stmts elasticity_2D)
           /\ In s3 (stmts elasticity_2D) /\ In s4 (stmts elasticity_2D)
           /\ toks s1
              = [NAME "X_delta"; OP "="; NAME "make_delta_microstructures";
                 OP "("; NAME "n_phases"; OP "="; NUMBER "2"; OP ",";
                 NAME "size"; OP "="; OP "("; NAME "n"; OP ","; NAME "n";
                 OP ")"; OP ")"]
           /\ (empty_lhs (toks s2) = true
               /\ calls s2 = [["make_elastic_FE_strain_delta"]])
           /\ toks s3
              = [NAME "model"; OP "="; NAME "MKSLocalizationModel"; OP "(";
                 NAME "basis"; OP "="; OP ")"]
           /\ toks s4 = [NAME "model"; OP "."; NAME "fit"; OP "("; OP ")"]
           /\ cell_ix s1 < cell_ix s2 /\ cell_ix s2 < cell_ix s3
           /\ cell_ix s3 < cell_ix s4)
  /\ (exists s1 s2 pre s3 s4 post,
         In s1 (stmts cahn_hilliard) /\ In s2 (stmts cahn_hilliard)
         /\ stmts cahn_hilliard = pre ++ s3 :: s4 :: post
         /\ (empty_lhs (toks s1) = true
             /\ calls s1 = [["make_cahn_hilliard"]])
         /\ toks s2
            = [NAME "ch_sim"; OP "="; NAME "CahnHilliardSimulation"; OP "(";
               NAME "dt"; OP "="; NAME "dt"; OP ")"]
         /\ toks s3
            = [NAME "for"; NAME "ii"; NAME "in"; NAME "range"; OP "(";
               NAME "time_steps"; OP ")"; OP ":"]
         /\ toks s4
            = [NAME "ch_sim"; OP "."; NAME "run"; OP "("; NAME "phi_sim";
               OP ")"]
         /\ indented s4 = true
         /\ cell_ix s1 < cell_ix s2 /\ cell_ix s2 < cell_ix s3)
  /\ (imports_in checker_board ["pymks"; "stats"] "autocorrelate"
      /\ imports_in checker_board ["pymks"; "stats"] "crosscorrelate"
      /\ exists s1 s2,
           In s1 (stmts checker_board) /\ In s2 (stmts checker_board)
           /\ toks s1
              = [OP "="; NAME "autocorrelate"; OP "("; OP ",";
                 NAME "periodic_axes"; OP "="; OP "("; NUMBER "0"; OP ",";
                 NUMBER "1"; OP ")"; OP ")"]
           /\ toks s2
              = [OP "="; NAME "crosscorrelate"; OP "("; OP ",";
                 NAME "periodic_axes"; OP "="; OP "("; NUMBER "0"; OP ",";
                 NUMBER "1"; OP ")"; OP ")"]).
Proof.
  split; [|split; [|split]].
  - split; [|split].
    + exists (nth 16 (stmts part_000) no_stmt). split; [pick|].
      exists [("MKSHomogenizationModel", "MKSHomogenizationModel")].
      split; pick.
    + exists (nth 19 (stmts part_000) no_stmt).
      split; [pick|]. split; by_evaluation.
    + exists (firstn 39 (stmts part_000)),
             (nth 39 (stmts part_000) no_stmt),
             (nth 40 (stmts part_000) no_stmt),
             (skipn 41 (stmts part_000)).
      do 5 (split; [by_evaluation|]). by_evaluation.
  - split.
    + exists (nth 18 (stmts elasticity_2D) no_stmt). split; [pick|].
      exists [("MKSLocalizationModel", "MKSLocalizationModel")].
      split; pick.
    + exists (nth 8 (stmts elasticity_2D) no_stmt),
             (nth 15 (stmts elasticity_2D) no_stmt),
             (nth 21 (stmts elasticity_2D) no_stmt),
             (nth 22 (stmts elasticity_2D) no_stmt).
      do 4 (split; [pick|]). split; [by_evaluation|].
      split; [split; by_evaluation|].
      do 2 (split; [by_evaluation|]). vm_compute. lia.
  - exists (nth 11 (stmts cahn_hilliard) no_stmt),
           (nth 37 (stmts cahn_hilliard) no_stmt),
           (firstn 41 (stmts cahn_hilliard)),
           (nth 41 (stmts cahn_hilliard) no_stmt),
           (nth 42 (stmts cahn_hilliard) no_stmt),
           (skipn 43 (stmts cahn_hilliard)).
    do 2 (split; [pick|]). split; [by_evaluation|].
    split; [split; by_evaluation|].
    do 4 (split; [by_evaluation|]). vm_compute. lia.
  - split; [|split].
    + exists (nth 10 (stmts checker_board) no_stmt). split; [pick|].
      exists [("autocorrelate", "autocorrelate")]. split; pick.
    + exists (nth 21 (stmts checker_board) no_stmt). split; [pick|].
      exists [("crosscorrelate", "crosscorrelate")]. split; pick.
    + exists (nth 14 (stmts checker_board) no_stmt),
             (nth 22 (stmts checker_board) no_stmt).
      do 2 (split; [pick|]). split; by_evaluation.
Qed.

(** C4.  No statement of any code cell handles or inspects an error.  The
    keywords [try], [except], [finally], [raise] and [assert] occur
    nowhere, and no statement opens with [if], [elif], [else], [while],
    [with] or [assert].  A value is tested, by a conditional keyword or a
    comparison, in three statements only, the comprehensions of part_000
    that select the grid scores of one polynomial degree with
    [if x.parameters['degree'] == k]: they compare a hyper-parameter with a
    literal to choose what is plotted, not an error or a status.  Every
    [in] is the one of a [for], none a membership test.  No name and no
    string mentions an error, an exception, a failure, a warning or a
    status. *)
Theorem C4_no_error_handling (nb : notebook) (s : stmt) :
  In nb all_notebooks -> In s (stmts nb) ->
  (forall k, In k error_keywords -> ~ In (NAME k) (toks s))
  /\ (forall k, head_name s = Some k -> ~ In k conditional_heads)
  /\ (forall t, In t (toks s) -> branching_token t = true ->
                exists target k,
                  In (target, k) degree_filters
                  /\ toks s = degree_filter target k)
  /\ (forall pre post,
         toks s = pre ++ NAME "in" :: post ->
         exists pre' v, pre = pre' ++ [NAME "for"; NAME v])
  /\ (forall x w, In (NAME x) (toks s) \/ In (STR x) (toks s) ->
                  In w error_words -> ~ substring_of w x).
Proof.
  intros Hnb Hs. split; [|split; [|split; [|split]]].
  - intros k Hk. revert s k Hs Hk.
    each_notebook Hnb; apply avoids_names_spec; by_evaluation.
  - intros k Hk. revert s k Hs Hk.
    each_notebook Hnb; apply heads_ok_spec; by_evaluation.
  - intros t Ht Hb. revert s t Hs Ht Hb.
    each_notebook Hnb; apply branches_listed_spec; by_evaluation.
  - apply in_of_for_spec.
    assert (H : forallb (fun s => in_of_for (toks s)) (stmts nb) = true)
      by (each_notebook Hnb; by_evaluation).
    rewrite forallb_forall in H. now apply H.
  - intros x w Hx Hw. revert s x w Hs Hx Hw.
    each_notebook Hnb; apply texts_avoid_spec; by_evaluation.
Qed.

(** C4 at the first degree filter of part_000. *)
Lemma C4_witness :
  In part_000 all_notebooks
  /\ In (nth 35 (stmts part_000) no_stmt) (stmts part_000)
  /\ In (NAME "if") (toks (nth 35 (stmts part_000) no_stmt))
  /\ branching_token (NAME "if") = true
  /\ exists target k,
       In (target, k) degree_filters
       /\ toks (nth 35 (stmts part_000) no_stmt) = degree_filter target k.
Proof.
  assert (H : In part_000 all_notebooks) by member.
  assert (Hs : In (nth 35 (stmts part_000) no_stmt) (stmts part_000))
    by pick.
  assert (Ht : In (NAME "if") (toks (nth 35 (stmts part_000) no_stmt)))
    by pick.
  assert (Hb : branching_token (NAME "if") = true) by reflexivity.
  split; [exact H|]. split; [exact Hs|]. split; [exact Ht|].
  split; [exact Hb|].
  exact (proj1 (proj2 (proj2 (C4_no_error_handling part_000 _ H Hs)))
               _ Ht Hb).
Defined.

(** The statements of a notebook ask nothing of the stores, each at its
    place. *)
Lemma store_silent (nb : notebook) :
  In nb all_notebooks ->
  forallb_prefix store_silent_b [] (stmts nb) = true.
Proof.
  intros Hnb. each_notebook Hnb; by_evaluation.
Qed.





(** C6.  Whatever the stores outside the kernel are, and whatever a store
    operation or a special line that reaches outside does to them, running
    the statements of a notebook top to bottom, running one of its
    statements, or running one of its code cells after the cells before
    it, leaves the stores as they were: no call is an open, write, save or
    pickle operation or starts from a module of file or store operations,
    and every special line is one of the five that stay in memory.  No
    name and no string is that of a file or store operation, and every
    import is from one of the thirteen modules of pymks, sklearn, numpy,
    matplotlib and math.  What a statement produces is a binding in the
    kernel's namespace. *)
Theorem C6_no_persistent_effect (nb : notebook) :
  In nb all_notebooks ->
  (forall (store : Type)
          (write : list string -> list token -> store -> store)
          (special : list token -> store -> store) (st : store),
      run_store store write special [] (stmts nb) st = st
      /\ (forall pre s post,
             stmts nb = pre ++ s :: post ->
             exec_store store write special (origins_after [] pre) s st = st)
      /\ (forall cs1 src cs2,
             cells nb = cs1 ++ code src :: cs2 ->
             run_store store write special
                       (origins_after [] (stmts_from 0 cs1))
                       (cell_stmts (length cs1) src) st = st))
  /\ (forall pre s post p,
         stmts nb = pre ++ s :: post -> In p (calls s) ->
         store_operation (origins_after [] pre) p = false
         /\ In p corpus_calls)
  /\ (forall s, In s (stmts nb) -> is_magic (toks s) = true ->
                In (toks s) special_lines /\ outside_special (toks s) = false)
  /\ (forall s x w, In s (stmts nb) ->
                    In (NAME x) (toks s) \/ In (STR x) (toks s) ->
                    In w persistence_words -> ~ substring_of w x)
  /\ (forall s i, In s (stmts nb) -> In i (imports_of (toks s)) ->
                  In (module_of i) corpus_modules
                  /\ ~ In (root (module_of i)) store_modules).
Proof.
  intros Hnb. pose proof (store_silent nb Hnb) as H.
  split; [|split; [|split; [|split]]].
  - intros store write special st. split; [|split].
    + now apply (run_store_silent store write special (stmts nb) []).
    + intros pre s post E. apply exec_store_silent.
      exact (forallb_prefix_spec _ _ _ H pre s post E).
    + intros cs1 src cs2 E. apply run_store_silent.
      now apply (forallb_prefix_cell _ nb cs1 cs2 src).
  - intros pre s post p E Hp. split.
    + apply (store_silent_calls pre s p); [|exact Hp].
      exact (forallb_prefix_spec _ _ _ H pre s post E).
    + apply (calls_known nb Hnb s); [|exact Hp].
      rewrite E. apply in_elt.
  - intros s Hs Hm. pose proof (specials_known nb Hnb s Hs Hm) as Hl.
    split; [exact Hl|].
    simpl in Hl.
    destruct Hl as [<- | [<- | [<- | [<- | [<- | []]]]]]; reflexivity.
  - each_notebook Hnb; apply texts_avoid_spec; by_evaluation.
  - intros s i Hs Hi. pose proof (imports_known nb Hnb s i Hs Hi) as Hk.
    split; [exact Hk|].
    simpl in Hk.
    repeat (destruct Hk as [<- | Hk];
            [vm_compute; intuition discriminate|]).
    destruct Hk.
Qed.

(** C6 at the time step of cahn_hilliard. *)
Lemma C6_witness :
  In cahn_hilliard all_notebooks
  /\ stmts cahn_hilliard
     = firstn 42 (stmts cahn_hilliard)
       ++ nth 42 (stmts cahn_hilliard) no_stmt
       :: skipn 43 (stmts cahn_hilliard)
  /\ forall (store : Type)
            (write : list string -> list token -> store -> store)
            (special : list token -> store -> store) (st : store),
       exec_store store write special
                  (origins_after [] (firstn 42 (stmts cahn_hilliard)))
                  (nth 42 (stmts cahn_hilliard) no_stmt) st = st.
Proof.
  assert (H : In cahn_hilliard all_notebooks) by member.
  assert (E : stmts cahn_hilliard
              = firstn 42 (stmts cahn_hilliard)
                ++ nth 42 (stmts cahn_hilliard) no_stmt
                :: skipn 43 (stmts cahn_hilliard))
    by (vm_compute; reflexivity).
  split; [exact H|]. split; [exact E|].
  intros store write special st.
  exact (proj1 (proj2 (proj1 (C6_no_persistent_effect cahn_hilliard H)
                             store write special st))
               _ _ _ E).
Defined.



(** Case analysis on the files of the corpus and their documents. *)
Ltac each_file Hf Hnb :=
  unfold corpus in Hf; simpl in Hf;
  destruct Hf as [<- | [<- | [<- | [<- | [<- | []]]]]];
  simpl in Hnb;
  repeat match type of Hnb with
         | _ \/ _ => destruct Hnb as [<- | Hnb]
         | False => destruct Hnb
         end.

Lemma python2_only_spec (nb : notebook) :
  python2_only nb <-> existsb python2_statement (stmts nb) = true.
Proof.
  unfold python2_only. now rewrite existsb_exists.
Qed.

Lemma has_print_statement_spec (nb : notebook) :
  has_print_statement nb <-> existsb print_statement (stmts nb) = true.
Proof.
  unfold has_print_statement. now rewrite existsb_exists.
Qed.

Lemma stops_at_stub (nb : notebook) (ix : nat) :
  first_stub nb = Some ix ->
  fst (run nb) = SyntaxErrorAt ix ->
  run_cells 0 builtins (firstn ix (cells nb)) = (Completed, snd (run nb)) ->
  exists ix ns,
    first_stub nb = Some ix
    /\ run nb = (SyntaxErrorAt ix, ns)
    /\ run_cells 0 builtins (firstn ix (cells nb)) = (Completed, ns).
Proof.
  intros H1 H2 H3. exists ix, (snd (run nb)). repeat split; try assumption.
  destruct (run nb) as [o ns]. simpl in *. now subst.
Qed.

(** C8, as worded, fails on python_intro: its first stub cell is cell 9
    ([my_name = ]), but the run stops before, in cell 3, where [log10(10)]
    calls a name that nothing has bound. *)
Lemma C8_counterexample : ~ fails_at_first_stub python_intro.
Proof.
  intros [ix [Hf Hr]].
  vm_compute in Hf. injection Hf as <-.
  vm_compute in Hr. discriminate Hr.
Qed.

(** C8, amended.  The corpus has stub statements that Python rejects: an
    assignment without a left-hand side, an assignment without a
    right-hand side, a call whose argument list opens with a comma.  In
    every notebook other than python_intro the run from a fresh kernel
    stops with a syntax error at the first stub cell, with the namespace
    the cells before it have built: no statement of the stub cell has run.
    In python_intro the run stops earlier, at cell 3, on the unbound name
    [log10]; its first stub cell is cell 9.  Whenever a stub cell is
    reached, it is rejected as a whole, and no run of any notebook gets
    past its first stub cell. *)
Theorem C8_stub_cells_stop_the_run :
  (exists s, In s (stmts elasticity_2D) /\ cell_ix s = 7
             /\ empty_lhs (toks s) = true /\ syntax_invalid s = true
             /\ In ["make_elastic_FE_strain_delta"] (calls s))
  /\ (exists s, In s (stmts part_000) /\ cell_ix s = 1
                /\ toks s = [NAME "X"; OP ","; NAME "y"; OP "="]
                /\ empty_rhs (toks s) = true /\ syntax_invalid s = true)
  /\ (exists s, In s (stmts elasticity_2D) /\ cell_ix s = 9
                /\ toks s = [NAME "draw_microstructure_strain";
                             OP "("; OP ","; OP ")"]
                /\ has_bad_pair (toks s) = true /\ syntax_invalid s = true)
  /\ (forall f nb,
         In f corpus -> path f <> python_intro_path -> In nb (documents f) ->
         exists ix ns,
           first_stub nb = Some ix
           /\ run nb = (SyntaxErrorAt ix, ns)
           /\ run_cells 0 builtins (firstn ix (cells nb)) = (Completed, ns))
  /\ (fst (run python_intro) = NameErrorAt 3 "log10"
      /\ first_stub python_intro = Some 9)
  /\ (forall ix ns src rest,
         stub_cell ix src = true ->
         run_cells ix ns (code src :: rest) = (SyntaxErrorAt ix, ns))
  /\ (forall nb ix,
         first_stub nb = Some ix ->
         fst (run nb) = SyntaxErrorAt ix
         \/ exists j x, j < ix /\ fst (run nb) = NameErrorAt j x).
Proof.
  split; [|split; [|split; [|split; [|split; [|split]]]]].
  - exists (nth 15 (stmts elasticity_2D) no_stmt).
    split; [pick|]. do 3 (split; [by_evaluation|]). pick.
  - exists (nth 13 (stmts part_000) no_stmt).
    split; [pick|]. do 3 (split; [by_evaluation|]). by_evaluation.
  - exists (nth 17 (stmts elasticity_2D) no_stmt).
    split; [pick|]. do 3 (split; [by_evaluation|]). by_evaluation.
  - intros f nb Hf Hp Hnb. each_file Hf Hnb.
    + apply (stops_at_stub _ 7); by_evaluation.
    + apply (stops_at_stub _ 9); by_evaluation.
    + apply (stops_at_stub _ 4); by_evaluation.
    + apply (stops_at_stub _ 4); by_evaluation.
    + exfalso. apply Hp. reflexivity.
    + apply (stops_at_stub _ 1); by_evaluation.
  - split; by_evaluation.
  - intros ix ns src rest. apply run_cells_stub.
  - intros nb ix. apply run_cells_stops_by_first_stub.
Qed.

(** C8 at a notebook of the corpus. *)
Lemma C8_witness :
  In cahn_hilliard_file corpus
  /\ path cahn_hilliard_file <> python_intro_path
  /\ In cahn_hilliard (documents cahn_hilliard_file)
  /\ exists ix ns,
       first_stub cahn_hilliard = Some ix
       /\ run cahn_hilliard = (SyntaxErrorAt ix, ns)
       /\ run_cells 0 builtins (firstn ix (cells cahn_hilliard)) = (Completed, ns).
Proof.
  assert (Hf : In cahn_hilliard_file corpus) by member.
  assert (Hp : path cahn_hilliard_file <> python_intro_path)
    by (intros E; vm_compute in E; discriminate E).
  assert (Hnb : In cahn_hilliard (documents cahn_hilliard_file)) by member.
  split; [exact Hf|]. split; [exact Hp|]. split; [exact Hnb|].
  exact (proj1 (proj2 (proj2 (proj2 C8_stub_cells_stop_the_run)))
               cahn_hilliard_file cahn_hilliard Hf Hp Hnb).
Defined.

(** C9, as worded, fails twice: cahn_hilliard has no statement that only
    Python 2 accepts (it prints through parenthesised calls), and the
    three-phase document of elasticity_2D.ipynb declares the language
    version 2.7.10, not 2.7.9. *)
Lemma C9_counterexample :
  ~ python2_only cahn_hilliard
  /\ ~ declares_python_2_7_9 elasticity_2D_3phase.
Proof.
  split.
  - rewrite python2_only_spec. vm_compute. discriminate.
  - intros [_ H]. vm_compute in H. discriminate H.
Qed.

Lemma not_three_phase (nb : notebook) :
  language_version nb = Some "2.7.9" -> nb <> elasticity_2D_3phase.
Proof.
  intros H E. rewrite E in H.
  change (Some "2.7.10" = Some "2.7.9") in H. discriminate H.
Qed.

(** C9, amended.  Every notebook of a file under src/notebooks declares the
    kernel [python2], displayed as Python 2; its language version is 2.7.9,
    except for the three-phase document of elasticity_2D.ipynb, which
    declares 2.7.10.  part_000, an nbformat 3 document, declares neither
    kernel nor version.  The notebooks of elasticity_2D.ipynb and
    checker_board.ipynb contain Python 2 [print] statements, [print size]
    and [print 'Center value', [0, center, center, 0]], which Python 3
    rejects; [print .shape] of checker_board is none of them, but a stub
    that Python 2 rejects as well.  The notebooks of the other files
    contain no statement that only Python 2 accepts. *)
Theorem C9_python2_binding :
  (forall f nb,
      In f corpus -> under_notebooks f = true -> In nb (documents f) ->
      kernelspec_name nb = Some "python2"
      /\ kernelspec_display_name nb = Some "Python 2"
      /\ ((nb <> elasticity_2D_3phase /\ language_version nb = Some "2.7.9")
          \/ (nb = elasticity_2D_3phase
              /\ language_version nb = Some "2.7.10")))
  /\ (nbformat part_000 = 3 /\ kernelspec_name part_000 = None
      /\ language_version part_000 = None)
  /\ (forall f nb,
         In f corpus -> In (path f) print_statement_paths ->
         In nb (documents f) -> has_print_statement nb)
  /\ ((exists s, In s (stmts elasticity_2D) /\ print_statement s = true
                 /\ toks s = [NAME "print"; NAME "size"])
      /\ (exists s, In s (stmts elasticity_2D_3phase)
                    /\ print_statement s = true
                    /\ toks s = [NAME "print"; NAME "size"])
      /\ (exists s, In s (stmts checker_board) /\ print_statement s = true
                    /\ toks s = [NAME "print"; STR "Center value"; OP ",";
                                 OP "["; NUMBER "0"; OP ","; NAME "center";
                                 OP ","; NAME "center"; OP ","; NUMBER "0";
                                 OP "]"]))
  /\ (exists s, In s (stmts checker_board)
                /\ toks s = [NAME "print"; OP "."; NAME "shape"]
                /\ syntax_invalid s = true /\ print_statement s = false
                /\ python2_statement s = false)
  /\ (forall f nb,
         In f corpus -> ~ In (path f) print_statement_paths ->
         In nb (documents f) -> ~ python2_only nb).
Proof.
  split; [|split; [|split; [|split; [|split]]]].
  - intros f nb Hf Hu Hnb.
    each_file Hf Hnb; try discriminate Hu;
      (split; [reflexivity | split; [reflexivity | ]]);
      first [right; split; reflexivity
            | left; split; [apply not_three_phase|]; reflexivity].
  - repeat split.
  - intros f nb Hf Hp Hnb.
    each_file Hf Hnb; try (apply has_print_statement_spec; by_evaluation);
      exfalso; vm_compute in Hp; intuition discriminate.
  - split; [|split].
    + exists (nth 36 (stmts elasticity_2D) no_stmt).
      split; [pick|]. split; by_evaluation.
    + exists (nth 25 (stmts elasticity_2D_3phase) no_stmt).
      split; [pick|]. split; by_evaluation.
    + exists (nth 26 (stmts checker_board) no_stmt).
      split; [pick|]. split; by_evaluation.
  - exists (nth 9 (stmts checker_board) no_stmt).
    split; [pick|]. do 3 (split; [by_evaluation|]). by_evaluation.
  - intros f nb Hf Hp Hnb.
    each_file Hf Hnb;
      try (rewrite python2_only_spec; vm_compute; discriminate);
      exfalso; apply Hp; pick.
Qed.

(** C9 at the three-phase document of elasticity_2D.ipynb. *)
Lemma C9_witness :
  In elasticity_2D_file corpus
  /\ under_notebooks elasticity_2D_file = true
  /\ In elasticity_2D_3phase (documents elasticity_2D_file)
  /\ (kernelspec_name elasticity_2D_3phase = Some "python2"
      /\ kernelspec_display_name elasticity_2D_3phase = Some "Python 2"
      /\ ((elasticity_2D_3phase <> elasticity_2D_3phase
           /\ language_version elasticity_2D_3phase = Some "2.7.9")
          \/ (elasticity_2D_3phase = elasticity_2D_3phase
              /\ language_version elasticity_2D_3phase = Some "2.7.10"))).
Proof.
  assert (Hf : In elasticity_2D_file corpus) by member.
  assert (Hu : under_notebooks elasticity_2D_file = true) by reflexivity.
  assert (Hnb : In elasticity_2D_3phase (documents elasticity_2D_file))
    by member.
  split; [exact Hf|]. split; [exact Hu|]. split; [exact Hnb|].
  exact (proj1 C9_python2_binding elasticity_2D_file elasticity_2D_3phase
               Hf Hu Hnb).
Defined.

(** C10.  In the notebooks of elasticity_2D.ipynb and cahn_hilliard.ipynb
    every call that draws from NumPy's global generator
    ([make_elastic_FE_strain_random], [make_cahn_hilliard],
    [np.random.normal]) comes after a call [np.random.seed(k)] of the same
    notebook with a literal [k] among 99, 191 and 101; none of these calls
    sits in a loop body.  Hence, whatever the library's generator, seeding
    and drawing functions are, two runs of the notebook that start from
    any two generator states draw the same values. *)
Theorem C10_random_calls_seeded (f : source_file) (nb : notebook) :
  In f corpus -> In (path f) seeded_paths -> In nb (documents f) ->
  (forall pre callee cell post,
      rng_events nb = pre ++ Draw callee cell :: post ->
      exists k, In (Seed (Some k)) pre /\ In k seed_constants)
  /\ events_at_top_level (stmts nb) = true
  /\ (forall (gen out : Type) (seeded : nat -> gen)
             (draw : list string -> nat -> gen -> out * gen) (g1 g2 : gen),
         exists vs,
           replay gen out seeded draw g1 (rng_events nb) = Some vs
           /\ replay gen out seeded draw g2 (rng_events nb) = Some vs).
Proof.
  intros Hf Hp Hnb.
  assert (H : forallb_prefix seeded_before_b [] (rng_events nb) = true
              /\ events_at_top_level (stmts nb) = true
              /\ seeds_literal (rng_events nb) = true
              /\ seeded_first (rng_events nb) = true).
  { each_file Hf Hnb;
      try (split; [by_evaluation | split; [by_evaluation |
             split; by_evaluation]]);
      exfalso; vm_compute in Hp; intuition discriminate. }
  destruct H as [H1 [H2 [H3 H4]]]. split; [|split].
  - now apply seeded_before_spec.
  - exact H2.
  - intros gen out seeded draw g1 g2.
    destruct (replay_total gen out seeded draw _ H3 g1) as [vs Hvs].
    exists vs. split; [exact Hvs|].
    now rewrite <- (replay_seeded gen out seeded draw _ H4 g1 g2).
Qed.

(** C10 at a notebook of the corpus. *)
Lemma C10_witness :
  In cahn_hilliard_file corpus
  /\ In (path cahn_hilliard_file) seeded_paths
  /\ In cahn_hilliard (documents cahn_hilliard_file)
  /\ ((forall pre callee cell post,
          rng_events cahn_hilliard = pre ++ Draw callee cell :: post ->
          exists k, In (Seed (Some k)) pre /\ In k seed_constants)
      /\ events_at_top_level (stmts cahn_hilliard) = true
      /\ (forall (gen out : Type) (seeded : nat -> gen)
                 (draw : list string -> nat -> gen -> out * gen) (g1 g2 : gen),
             exists vs,
               replay gen out seeded draw g1 (rng_events cahn_hilliard) = Some vs
               /\ replay gen out seeded draw g2 (rng_events cahn_hilliard) = Some vs)).
Proof.
  assert (Hf : In cahn_hilliard_file corpus) by member.
  assert (Hp : In (path cahn_hilliard_file) seeded_paths) by member.
  assert (Hnb : In cahn_hilliard (documents cahn_hilliard_file)) by member.
  split; [exact Hf|]. split; [exact Hp|]. split; [exact Hnb|].
  exact (C10_random_calls_seeded cahn_hilliard_file cahn_hilliard Hf Hp Hnb).
Defined.
(** * The computations of the code cells: what they guarantee *)

Lemma traverse_Forall2 {B C : Type} (f : B -> option C) (l : list B) :
  forall out, traverse f l = Some out <->
              Forall2 (fun x y => f x = Some y) l out.
Proof.
  induction l as [|x l IH]; intros out; simpl.
  - split.
    + intros H. injection H as <-. constructor.
    + intros H. inversion H. reflexivity.
  - destruct (f x) as [y|] eqn:Hx.
    + destruct (traverse f l) as [ys|] eqn:Hl; simpl.
      * split.
        -- intros H. injection H as <-. constructor; [assumption|].
           now apply IH.
        -- intros H. inversion H as [|? z ? zs Hz Hzs]; subst.
           rewrite Hx in Hz. injection Hz as <-.
           apply IH in Hzs. now injection Hzs as <-.
      * split; [discriminate|].
        intros H. inversion H as [|? z ? zs Hz Hzs]; subst.
        apply IH in Hzs. discriminate.
    + split; [discriminate|].
      intros H. inversion H as [|? z ? zs Hz Hzs]; subst. congruence.
Qed.

Lemma traverse_total {B C : Type} (f : B -> option C) (l : list B) :
  Forall (fun x => exists y, f x = Some y) l ->
  exists out, traverse f l = Some out.
Proof.
  induction 1 as [|x l [y Hy] _ [out IH]]; simpl.
  - now exists [].
  - rewrite Hy, IH. now exists (y :: out).
Qed.

(** Planes of one row: the selection in every plane is the selection in
    every row. *)
Lemma traverse_planes {B C : Type} (f : B -> option C) (l : list B) :
  traverse (traverse f) (map (fun r => [r]) l)
  = option_map (map (fun v => [v])) (traverse f l).
Proof.
  induction l as [|x l IH]; [reflexivity|].
  cbn [map traverse]. rewrite IH.
  destruct (f x) as [y|]; [|reflexivity].
  cbn [option_map]. now destruct (traverse f l).
Qed.

Lemma Forall2_same_length {B C : Type} (P : B -> C -> Prop) (l : list B)
      (l' : list C) :
  Forall2 P l l' -> length l = length l'.
Proof.
  induction 1; simpl; congruence.
Qed.

Lemma combine_firstn_both {B C : Type} (n : nat) (l : list B) (l' : list C) :
  combine (firstn n l) (firstn n l') = firstn n (combine l l').
Proof.
  revert l l'. induction n as [|n IH]; intros [|x l] [|y l']; simpl;
    try reflexivity.
  now rewrite IH.
Qed.

Lemma combine_skipn_both {B C : Type} (n : nat) (l : list B) (l' : list C) :
  length l = length l' ->
  combine (skipn n l) (skipn n l') = skipn n (combine l l').
Proof.
  revert l l'. induction n as [|n IH]; intros [|x l] [|y l'] H; simpl in *;
    try reflexivity; try discriminate.
  apply IH. now injection H.
Qed.

(** X1.  [diabetes_X[:, :, 2]] keeps one feature: on a dataset with at
    least three columns every sample becomes a row that holds its entry
    of index 2 and nothing else; with fewer columns the selection raises
    IndexError, whatever the number of samples. *)
Theorem diabetes_X_temp_one_feature (R : Type) (data : PythonIntro.array2 R) :
  (PythonIntro.n_cols R data <= 2 -> PythonIntro.diabetes_X_temp R data = None)
  /\ (PythonIntro.well_formed R data -> 2 < PythonIntro.n_cols R data ->
      exists out,
        PythonIntro.diabetes_X_temp R data = Some out
        /\ Forall2 (fun r o => exists v, nth_error r 2 = Some v /\ o = [v])
                   (PythonIntro.rows R data) out).
Proof.
  unfold PythonIntro.diabetes_X_temp, PythonIntro.diabetes_X,
    PythonIntro.well_formed.
  destruct data as [d rs]; unfold PythonIntro.n_cols, PythonIntro.rows.
  split.
  - intros H. apply Nat.ltb_ge in H. now rewrite H.
  - intros Hwf Hd. apply Nat.ltb_lt in Hd as Hb. rewrite Hb. clear Hb.
    rewrite traverse_planes.
    destruct (traverse_total (fun r => nth_error r 2) rs) as [vs Hvs].
    { eapply Forall_impl; [|exact Hwf]. intros r Hr. cbv beta in Hr.
      destruct (nth_error r 2) as [v|] eqn:Hv; [now exists v|].
      apply nth_error_None in Hv. lia. }
    rewrite Hvs. exists (map (fun v => [v]) vs). split; [reflexivity|].
    apply traverse_Forall2 in Hvs. clear Hwf.
    induction Hvs as [|r v rs vs Hv _ IH]; [constructor|].
    constructor; [now exists v | exact IH].
Qed.

(** X1 on a dataset of two samples and three columns. *)
Lemma diabetes_X_temp_one_feature_witness :
  let data := {| PythonIntro.n_cols := 3;
                 PythonIntro.rows := [[1; 2; 3]; [4; 5; 6]] |} in
  PythonIntro.well_formed nat data
  /\ 2 < PythonIntro.n_cols nat data
  /\ exists out,
       PythonIntro.diabetes_X_temp nat data = Some out
       /\ Forall2 (fun r o => exists v, nth_error r 2 = Some v /\ o = [v])
                  (PythonIntro.rows nat data) out.
Proof.
  intros data.
  assert (Hwf : PythonIntro.well_formed nat data)
    by (repeat constructor).
  assert (Hd : 2 < PythonIntro.n_cols nat data) by (simpl; lia).
  split; [exact Hwf|]. split; [exact Hd|].
  exact (proj2 (diabetes_X_temp_one_feature nat data) Hwf Hd).
Defined.

(** X2.  The split into training and test sets loses nothing: the
    training set followed by the test set is the data; the test set holds
    the last 20 entries, or all of them when there are at most 20, in
    which case the training set is empty. *)
Theorem diabetes_split_partition (B : Type) (a : list B) :
  PythonIntro.all_but_last_20 a ++ PythonIntro.last_20 a = a
  /\ length (PythonIntro.last_20 a) = Nat.min 20 (length a)
  /\ length (PythonIntro.all_but_last_20 a) = length a - 20
  /\ (length a <= 20 ->
      PythonIntro.all_but_last_20 a = [] /\ PythonIntro.last_20 a = a).
Proof.
  unfold PythonIntro.all_but_last_20, PythonIntro.last_20.
  split; [apply firstn_skipn|]. split; [|split].
  - rewrite length_skipn. lia.
  - rewrite length_firstn. lia.
  - intros H. replace (length a - 20) with 0 by lia. now simpl.
Qed.

(** X2 on a dataset of three entries. *)
Lemma diabetes_split_partition_witness :
  length [1; 2; 3] <= 20
  /\ PythonIntro.all_but_last_20 [1; 2; 3] = []
  /\ PythonIntro.last_20 [1; 2; 3] = [1; 2; 3].
Proof.
  assert (H : length [1; 2; 3] <= 20) by (simpl; lia).
  split; [exact H|].
  exact (proj2 (proj2 (proj2 (diabetes_split_partition nat [1; 2; 3]))) H).
Defined.

(** X3.  Features and targets are split apart, each by its own slice.
    When the dataset has one target per sample, the two splits agree:
    the training samples paired with the training targets, followed by
    the test samples paired with the test targets, are the samples paired
    with their own targets. *)
Theorem diabetes_split_aligned (R : Type) (data : PythonIntro.array2 R)
        (target : list R) (out : list (list R)) :
  PythonIntro.diabetes_X_temp R data = Some out ->
  length target = length (PythonIntro.rows R data) ->
  exists tr te,
    PythonIntro.diabetes_X_train R data = Some tr
    /\ PythonIntro.diabetes_X_test R data = Some te
    /\ length tr = length (PythonIntro.diabetes_y_train R target)
    /\ length te = length (PythonIntro.diabetes_y_test R target)
    /\ combine tr (PythonIntro.diabetes_y_train R target)
       ++ combine te (PythonIntro.diabetes_y_test R target)
       = combine out target.
Proof.
  intros Hout Hlen.
  assert (Hsame : length out = length target).
  { unfold PythonIntro.diabetes_X_temp in Hout.
    destruct (2 <? PythonIntro.n_cols R data); [|discriminate].
    apply traverse_Forall2 in Hout. apply Forall2_same_length in Hout.
    unfold PythonIntro.diabetes_X in Hout. rewrite length_map in Hout.
    congruence. }
  unfold PythonIntro.diabetes_X_train, PythonIntro.diabetes_X_test,
    PythonIntro.diabetes_y_train, PythonIntro.diabetes_y_test.
  rewrite Hout. simpl.
  exists (PythonIntro.all_but_last_20 out), (PythonIntro.last_20 out).
  unfold PythonIntro.all_but_last_20, PythonIntro.last_20.
  rewrite Hsame.
  split; [reflexivity|]. split; [reflexivity|]. split; [|split].
  - rewrite !length_firstn. lia.
  - rewrite !length_skipn. lia.
  - rewrite combine_firstn_both, combine_skipn_both by assumption.
    apply firstn_skipn.
Qed.

(** X3 on a dataset of two samples. *)
Lemma diabetes_split_aligned_witness :
  let data := {| PythonIntro.n_cols := 3;
                 PythonIntro.rows := [[1; 2; 3]; [4; 5; 6]] |} in
  PythonIntro.diabetes_X_temp nat data = Some [[3]; [6]]
  /\ length [10; 20] = length (PythonIntro.rows nat data)
  /\ exists tr te,
       PythonIntro.diabetes_X_train nat data = Some tr
       /\ PythonIntro.diabetes_X_test nat data = Some te
       /\ length tr = length (PythonIntro.diabetes_y_train nat [10; 20])
       /\ length te = length (PythonIntro.diabetes_y_test nat [10; 20])
       /\ combine tr (PythonIntro.diabetes_y_train nat [10; 20])
          ++ combine te (PythonIntro.diabetes_y_test nat [10; 20])
          = combine [[3]; [6]] [10; 20].
Proof.
  intros data.
  assert (H1 : PythonIntro.diabetes_X_temp nat data = Some [[3]; [6]])
    by reflexivity.
  assert (H2 : length [10; 20] = length (PythonIntro.rows nat data))
    by reflexivity.
  split; [exact H1|]. split; [exact H2|].
  exact (diabetes_split_aligned nat data [10; 20] [[3]; [6]] H1 H2).
Defined.

Lemma nth_error_pick_every {B : Type} (k : nat) (l : list B) :
  forall i j,
    nth_error (Homogenization.pick_every (S k) i l) j
    = nth_error l (i + j * S k).
Proof.
  induction l as [|x l IH]; intros i j.
  - simpl. destruct j; destruct (i + _); reflexivity.
  - destruct i as [|i]; cbn [Homogenization.pick_every].
    + destruct j as [|j]; [reflexivity|].
      cbn [nth_error]. rewrite IH.
      replace (S k - 1) with k by lia.
      replace (0 + S j * S k) with (S (k + j * S k)) by lia.
      reflexivity.
    + rewrite IH. reflexivity.
Qed.

(** X4.  [X[::sample_size]] takes one example per class: for a positive
    [sample_size] its entry of index [i] is the entry of index
    [i * sample_size] of [X], and when [X] holds the [sum(n_samples)]
    samples the cell asks for, there are as many examples as grain sizes,
    the first sample of each.  A [sample_size] of zero raises
    ValueError. *)
Theorem X_examples_one_per_class (B : Type) (X : list B) (sample_size : nat) :
  Homogenization.X_examples X 0 = None
  /\ (0 < sample_size ->
      exists ex,
        Homogenization.X_examples X sample_size = Some ex
        /\ (forall i, nth_error ex i = nth_error X (i * sample_size))
        /\ (length X = list_sum (Homogenization.n_samples sample_size) ->
            length ex = length Homogenization.grain_size)).
Proof.
  split; [reflexivity|]. intros Hk.
  unfold Homogenization.X_examples.
  destruct sample_size as [|k]; [lia|]. cbn [Nat.eqb].
  exists (Homogenization.pick_every (S k) 0 X).
  split; [reflexivity|].
  assert (Hnth : forall i, nth_error (Homogenization.pick_every (S k) 0 X) i
                           = nth_error X (i * S k)).
  { intros i. now rewrite nth_error_pick_every. }
  split; [exact Hnth|].
  intros Hlen. unfold Homogenization.n_samples in Hlen. simpl in Hlen.
  assert (H6 : nth_error (Homogenization.pick_every (S k) 0 X) 6 = None).
  { rewrite Hnth. apply nth_error_None. lia. }
  assert (H5 : nth_error (Homogenization.pick_every (S k) 0 X) 5 <> None).
  { rewrite Hnth. apply nth_error_Some. lia. }
  apply nth_error_None in H6. apply nth_error_Some in H5.
  simpl. lia.
Qed.

(** X4 on twelve samples, two per class. *)
Lemma X_examples_one_per_class_witness :
  0 < 2
  /\ exists ex,
       Homogenization.X_examples (seq 0 12) 2 = Some ex
       /\ (forall i, nth_error ex i = nth_error (seq 0 12) (i * 2))
       /\ (length (seq 0 12) = list_sum (Homogenization.n_samples 2) ->
           length ex = length Homogenization.grain_size).
Proof.
  assert (H : 0 < 2) by lia.
  split; [exact H|].
  exact (proj2 (X_examples_one_per_class nat (seq 0 12) 2) H).
Defined.

Lemma select_degree_None {Score : Type} (d : nat)
      (grid : list (Homogenization.grid_score Score)) :
  Homogenization.select_degree Score d grid = None
  <-> Exists (fun x => Homogenization.lookup "degree"
                         (Homogenization.parameters Score x) = None) grid.
Proof.
  induction grid as [|x grid IH]; simpl.
  - split; [discriminate | intros H; inversion H].
  - destruct (Homogenization.lookup "degree" (Homogenization.parameters Score x))
      as [v|] eqn:Hx.
    + destruct (Homogenization.select_degree Score d grid) as [l|]; simpl.
      * split; [discriminate|].
        intros H. inversion H as [? ? H0 | ? ? H0]; subst; [congruence|].
        apply IH in H0. discriminate.
      * split; [|reflexivity].
        intros _. right. now apply IH.
    + split; [|reflexivity]. intros _. now left.
Qed.

Lemma select_degree_Some {Score : Type} (d : nat)
      (grid : list (Homogenization.grid_score Score)) :
  forall l,
    Homogenization.select_degree Score d grid = Some l ->
    l = filter (fun x => Homogenization.has_degree d
                           (Homogenization.parameters Score x)) grid.
Proof.
  induction grid as [|x grid IH]; simpl; intros l H.
  - now injection H as <-.
  - unfold Homogenization.has_degree.
    destruct (Homogenization.lookup "degree" (Homogenization.parameters Score x))
      as [v|]; [|discriminate].
    destruct (Homogenization.select_degree Score d grid) as [sel|];
      [|discriminate].
    simpl in H. injection H as <-. rewrite (IH sel eq_refl).
    now destruct (v =? d).
Qed.

Lemma in_skipn_in {B : Type} (x : B) (n : nat) (l : list B) :
  In x (skipn n l) -> In x l.
Proof.
  revert l. induction n as [|n IH]; intros [|y l] H; simpl in *; auto.
Qed.

Lemma in_firstn_in {B : Type} (x : B) (n : nat) (l : list B) :
  In x (firstn n l) -> In x l.
Proof.
  revert l. induction n as [|n IH]; intros [|y l] H; simpl in *;
    try contradiction.
  destruct H as [H | H]; auto.
Qed.

Lemma length_slice_2_to_last {B : Type} (l : list B) :
  length (Homogenization.slice_2_to_last l) = length l - 3.
Proof.
  unfold Homogenization.slice_2_to_last.
  rewrite length_skipn, length_firstn. lia.
Qed.

Lemma map_slice_2_to_last {B C : Type} (g : B -> C) (l : list B) :
  map g (Homogenization.slice_2_to_last l)
  = Homogenization.slice_2_to_last (map g l).
Proof.
  unfold Homogenization.slice_2_to_last.
  now rewrite <- skipn_map, <- firstn_map, length_map.
Qed.

Lemma filter_parameters {Score : Type} (p : list (string * nat) -> bool)
      (grid : list (Homogenization.grid_score Score)) :
  map (Homogenization.parameters Score)
      (filter (fun x => p (Homogenization.parameters Score x)) grid)
  = filter p (map (Homogenization.parameters Score) grid).
Proof.
  induction grid as [|x grid IH]; simpl; [reflexivity|].
  destruct (p (Homogenization.parameters Score x)); simpl; now rewrite IH.
Qed.

Lemma Permutation_filter_length {B : Type} (p : B -> bool) (l1 l2 : list B) :
  Permutation l1 l2 -> length (filter p l1) = length (filter p l2).
Proof.
  induction 1 as [| x l l0 _ IH | x y l | l l0 l3 _ IH1 _ IH2]; simpl.
  - reflexivity.
  - destruct (p x); simpl; now rewrite IH.
  - destruct (p x), (p y); reflexivity.
  - congruence.
Qed.

(** X5.  A curve [gs_deg_d] fails with KeyError exactly when an entry of
    the grid scores has no degree among its parameters.  Otherwise it is
    the entries of degree [d], in the order of the grid, without the
    first two and the last one: three entries fewer, none when there are
    at most three. *)
Theorem gs_deg_behaviour (Score : Type) (d : nat)
        (grid : list (Homogenization.grid_score Score)) :
  (Homogenization.gs_deg Score d grid = None
   <-> Exists (fun x => Homogenization.lookup "degree"
                          (Homogenization.parameters Score x) = None) grid)
  /\ (forall l,
         Homogenization.gs_deg Score d grid = Some l ->
         let selected :=
           filter (fun x => Homogenization.has_degree d
                              (Homogenization.parameters Score x)) grid in
         l = Homogenization.slice_2_to_last selected
         /\ length l = length selected - 3
         /\ Forall (fun x => Homogenization.lookup "degree"
                               (Homogenization.parameters Score x) = Some d) l).
Proof.
  unfold Homogenization.gs_deg. split.
  - rewrite <- (select_degree_None d).
    destruct (Homogenization.select_degree Score d grid); simpl;
      split; intros H; first [discriminate H | reflexivity].
  - intros l H.
    destruct (Homogenization.select_degree Score d grid) as [sel|] eqn:Hsel;
      [|discriminate].
    simpl in H. injection H as <-.
    apply select_degree_Some in Hsel. subst sel. cbv zeta.
    split; [reflexivity|]. split; [apply length_slice_2_to_last|].
    apply Forall_forall. intros x Hx.
    unfold Homogenization.slice_2_to_last in Hx.
    apply in_skipn_in, in_firstn_in in Hx. apply filter_In in Hx.
    destruct Hx as [_ Hx]. unfold Homogenization.has_degree in Hx.
    destruct (Homogenization.lookup "degree" (Homogenization.parameters Score x));
      [|discriminate].
    apply Nat.eqb_eq in Hx. now subst.
Qed.

(** X5 on five scores of degree 2: the curve keeps the third and the
    fourth. *)
Lemma gs_deg_behaviour_witness :
  Homogenization.gs_deg nat 2 Homogenization.five_scores
  = Some (Homogenization.slice_2_to_last Homogenization.five_scores)
  /\ let selected :=
       filter (fun x => Homogenization.has_degree 2
                          (Homogenization.parameters nat x))
              Homogenization.five_scores in
     Homogenization.slice_2_to_last Homogenization.five_scores
     = Homogenization.slice_2_to_last selected
     /\ length (Homogenization.slice_2_to_last Homogenization.five_scores)
        = length selected - 3
     /\ Forall (fun x => Homogenization.lookup "degree"
                           (Homogenization.parameters nat x) = Some 2)
               (Homogenization.slice_2_to_last Homogenization.five_scores).
Proof.
  assert (H : Homogenization.gs_deg nat 2 Homogenization.five_scores
              = Some (Homogenization.slice_2_to_last
                        Homogenization.five_scores)) by reflexivity.
  split; [exact H|].
  exact (proj2 (gs_deg_behaviour nat 2 Homogenization.five_scores) _ H).
Defined.

Lemma combinations_have_degree :
  Forall (fun p => Homogenization.lookup "degree" p <> None)
         Homogenization.combinations.
Proof.
  apply Forall_forall. intros p Hp.
  unfold Homogenization.combinations in Hp.
  apply in_flat_map in Hp. destruct Hp as [d [_ Hp]].
  apply in_map_iff in Hp. destruct Hp as [c [<- _]]. discriminate.
Qed.

(** On a grid with one entry per combination, in any order, the curve of
    a tuned degree is defined and is the sliced selection. *)
Lemma gs_deg_on_combinations {Score : Type} (d : nat)
      (grid : list (Homogenization.grid_score Score)) :
  Permutation (map (Homogenization.parameters Score) grid)
              Homogenization.combinations ->
  Homogenization.gs_deg Score d grid
  = Some (Homogenization.slice_2_to_last
            (filter (fun x => Homogenization.has_degree d
                                (Homogenization.parameters Score x)) grid)).
Proof.
  intros Hperm. unfold Homogenization.gs_deg.
  destruct (Homogenization.select_degree Score d grid) as [sel|] eqn:Hsel.
  - apply select_degree_Some in Hsel. now subst.
  - exfalso. apply select_degree_None in Hsel.
    apply Exists_exists in Hsel. destruct Hsel as [x [Hx Hnone]].
    assert (Hin : In (Homogenization.parameters Score x)
                     Homogenization.combinations).
    { eapply Permutation_in; [exact Hperm|]. now apply in_map. }
    pose proof combinations_have_degree as Hall.
    rewrite Forall_forall in Hall. now apply (Hall _ Hin).
Qed.

(** X6.  Every curve the cell draws has four points: when the grid scores
    hold one entry per combination of [params_to_tune], in whatever
    order, each of [gs_deg_1], [gs_deg_2] and [gs_deg_3] is defined and
    keeps four of the seven entries of its degree. *)
Theorem gs_deg_four_points (Score : Type) (d : nat)
        (grid : list (Homogenization.grid_score Score)) :
  Permutation (map (Homogenization.parameters Score) grid)
              Homogenization.combinations ->
  In d [1; 2; 3] ->
  exists l, Homogenization.gs_deg Score d grid = Some l /\ length l = 4.
Proof.
  intros Hperm Hd. rewrite (gs_deg_on_combinations d grid Hperm).
  eexists. split; [reflexivity|].
  rewrite length_slice_2_to_last.
  rewrite <- (length_map (Homogenization.parameters Score)).
  rewrite (filter_parameters (Homogenization.has_degree d)).
  rewrite (Permutation_filter_length _ _ _ Hperm).
  destruct Hd as [<- | [<- | [<- | []]]]; reflexivity.
Qed.

(** X6 on the combinations in reverse order. *)
Lemma gs_deg_four_points_witness :
  let grid := map (fun p => {| Homogenization.parameters := p;
                               Homogenization.validation_scores := 0 |})
                  (rev Homogenization.combinations) in
  Permutation (map (Homogenization.parameters nat) grid)
              Homogenization.combinations
  /\ In 2 [1; 2; 3]
  /\ exists l, Homogenization.gs_deg nat 2 grid = Some l /\ length l = 4.
Proof.
  intros grid.
  assert (Hp : Permutation (map (Homogenization.parameters nat) grid)
                           Homogenization.combinations).
  { change (Permutation (rev Homogenization.combinations)
                        Homogenization.combinations).
    apply Permutation_sym, Permutation_rev. }
  assert (Hd : In 2 [1; 2; 3]) by (simpl; auto).
  split; [exact Hp|]. split; [exact Hd|].
  exact (gs_deg_four_points nat 2 grid Hp Hd).
Defined.

(** X7.  When the grid scores list the combinations degree by degree with
    the numbers of components ascending, every curve shows the numbers of
    components 3, 4, 5 and 6: the slice drops 1, 2 and 7. *)
Theorem gs_deg_components (Score : Type) (d : nat)
        (grid : list (Homogenization.grid_score Score)) :
  map (Homogenization.parameters Score) grid = Homogenization.combinations ->
  In d [1; 2; 3] ->
  exists l,
    Homogenization.gs_deg Score d grid = Some l
    /\ map (fun x => Homogenization.lookup "n_components"
                       (Homogenization.parameters Score x)) l
       = [Some 3; Some 4; Some 5; Some 6].
Proof.
  intros Hgrid Hd.
  assert (Hperm : Permutation (map (Homogenization.parameters Score) grid)
                              Homogenization.combinations)
    by (rewrite Hgrid; apply Permutation_refl).
  rewrite (gs_deg_on_combinations d grid Hperm).
  eexists. split; [reflexivity|].
  rewrite <- (map_map (Homogenization.parameters Score)
                      (Homogenization.lookup "n_components")).
  rewrite map_slice_2_to_last.
  rewrite (filter_parameters (Homogenization.has_degree d)).
  rewrite Hgrid.
  destruct Hd as [<- | [<- | [<- | []]]]; reflexivity.
Qed.

(** X7 on the combinations in their order. *)
Lemma gs_deg_components_witness :
  let grid := map (fun p => {| Homogenization.parameters := p;
                               Homogenization.validation_scores := 0 |})
                  Homogenization.combinations in
  map (Homogenization.parameters nat) grid = Homogenization.combinations
  /\ In 3 [1; 2; 3]
  /\ exists l,
       Homogenization.gs_deg nat 3 grid = Some l
       /\ map (fun x => Homogenization.lookup "n_components"
                          (Homogenization.parameters nat x)) l
          = [Some 3; Some 4; Some 5; Some 6].
Proof.
  intros grid.
  assert (Hg : map (Homogenization.parameters nat) grid
               = Homogenization.combinations) by reflexivity.
  assert (Hd : In 3 [1; 2; 3]) by (simpl; auto).
  split; [exact Hg|]. split; [exact Hd|].
  exact (gs_deg_components nat 3 grid Hg Hd).
Defined.

(** X8.  [X] and [y] are both reshaped with the shape computed from [X].
    For an [X] of at least two axes the two reshapes succeed exactly when
    [y] holds as many elements as [X]; both results then have the first
    axis of [X], one row per sample, and the rest of the axes flattened
    into the second.  An [X] without axes raises IndexError. *)
Theorem split_inputs_same_size (n d : nat) (rest y_shape a b : list nat) :
  CahnHilliard.split_inputs [] y_shape = None
  /\ (CahnHilliard.split_inputs (n :: d :: rest) y_shape = Some (a, b)
      <-> np_prod y_shape = np_prod (n :: d :: rest)
          /\ a = [n; np_prod (d :: rest)]
          /\ b = [n; np_prod (d :: rest)]).
Proof.
  split; [reflexivity|].
  unfold CahnHilliard.split_inputs, CahnHilliard.split_shape, reshape.
  assert (E : np_prod (n :: d :: rest) = np_prod [n; np_prod (d :: rest)]).
  { unfold np_prod. simpl. lia. }
  rewrite <- E, Nat.eqb_refl.
  destruct (np_prod y_shape =? np_prod (n :: d :: rest)) eqn:Hy.
  - apply Nat.eqb_eq in Hy. split.
    + intros H. injection H as <- <-. auto.
    + intros [_ [-> ->]]. reflexivity.
  - apply Nat.eqb_neq in Hy. split.
    + discriminate.
    + intros [H _]. contradiction.
Qed.

(** X8 on 400 samples of 41 by 41 cells. *)
Lemma split_inputs_same_size_witness :
  np_prod [400; 41; 41] = np_prod [400; 41; 41]
  /\ CahnHilliard.split_inputs [400; 41; 41] [400; 41; 41]
     = Some ([400; 1681], [400; 1681]).
Proof.
  assert (H : np_prod [400; 41; 41] = np_prod [400; 41; 41]
              /\ [400; 1681] = [400; np_prod [41; 41]]
              /\ [400; 1681] = [400; np_prod [41; 41]])
    by (repeat split; reflexivity).
  split; [exact (proj1 H)|].
  exact (proj2 (proj2 (split_inputs_same_size 400 41 [41] [400; 41; 41]
                                              [400; 1681] [400; 1681])) H).
Defined.

Section TimeMarchingFacts.

Variables field sim mdl : Type.
Variable run : sim -> field -> sim.
Variable response : sim -> field.
Variable predict : mdl -> field -> field * mdl.

Local Notation "'kernel'" := (CahnHilliard.kernel field sim mdl).
Local Notation "'body'" :=
  (CahnHilliard.body field sim mdl run response predict).
Local Notation "'march'" :=
  (CahnHilliard.march field sim mdl run response predict).

Lemma phi_sim_after_body (k : kernel) :
  CahnHilliard.phi_sim field sim mdl (body k)
  = response (CahnHilliard.ch_sim field sim mdl (body k)).
Proof.
  unfold CahnHilliard.body.
  now destruct (predict (CahnHilliard.model field sim mdl k)
                        (CahnHilliard.phi_pred field sim mdl k)).
Qed.

Lemma march_after_body (n : nat) :
  forall k : kernel, march n (body k) = body (march n k).
Proof.
  induction n as [|n IH]; intros k; simpl; [reflexivity|].
  now rewrite IH.
Qed.

(** X9.  After one pass or more of the time loop, [phi_sim] is the
    response the simulation object holds: the loop leaves the two in
    step, whatever the fields were before. *)
Theorem phi_sim_is_latest_response (time_steps : nat) (k : kernel) :
  0 < time_steps ->
  CahnHilliard.phi_sim field sim mdl (march time_steps k)
  = response (CahnHilliard.ch_sim field sim mdl (march time_steps k)).
Proof.
  destruct time_steps as [|n]; [lia|]. intros _.
  simpl. rewrite march_after_body. apply phi_sim_after_body.
Qed.

(** X12.  If the model is exact, that is if its prediction for a field is
    the response of the simulation to that field, whatever their states,
    then from a common initial field the prediction and the simulation
    agree after every number of passes: what the last cell compares is
    the error the model has accumulated. *)
Theorem exact_model_tracks_simulation (time_steps : nat) (k : kernel) :
  (forall s m phi, fst (predict m phi) = response (run s phi)) ->
  CahnHilliard.phi_pred field sim mdl k = CahnHilliard.phi_sim field sim mdl k ->
  CahnHilliard.phi_pred field sim mdl (march time_steps k)
  = CahnHilliard.phi_sim field sim mdl (march time_steps k).
Proof.
  intros Hexact. revert k.
  induction time_steps as [|n IH]; intros k Hk; simpl; [exact Hk|].
  apply IH. unfold CahnHilliard.body.
  specialize (Hexact (CahnHilliard.ch_sim field sim mdl k)
                     (CahnHilliard.model field sim mdl k)
                     (CahnHilliard.phi_pred field sim mdl k)).
  destruct (predict (CahnHilliard.model field sim mdl k)
                    (CahnHilliard.phi_pred field sim mdl k)) as [p m].
  simpl in *. now rewrite Hexact, Hk.
Qed.

End TimeMarchingFacts.

(** X9 on a simulation that counts: ten passes from the field 5. *)
Lemma phi_sim_is_latest_response_witness :
  let k := CahnHilliard.start nat nat unit 0 tt 5 in
  let march := CahnHilliard.march nat nat unit (fun _ phi => S phi)
                                  (fun s => s) (fun m phi => (S phi, m)) in
  0 < 10
  /\ CahnHilliard.phi_sim nat nat unit (march 10 k)
     = CahnHilliard.ch_sim nat nat unit (march 10 k).
Proof.
  intros k march.
  assert (H : 0 < 10) by lia.
  split; [exact H|].
  exact (phi_sim_is_latest_response nat nat unit (fun _ phi => S phi)
                                    (fun s => s) (fun m phi => (S phi, m))
                                    10 k H).
Defined.

(** X12 on a simulation and a model that both add one. *)
Lemma exact_model_tracks_simulation_witness :
  let k := CahnHilliard.start nat nat unit 0 tt 5 in
  let march := CahnHilliard.march nat nat unit (fun _ phi => S phi)
                                  (fun s => s) (fun m phi => (S phi, m)) in
  (forall (s : nat) (m : unit) (phi : nat),
      fst (S phi, m) = (fun s0 : nat => s0) ((fun _ p => S p) s phi))
  /\ CahnHilliard.phi_pred nat nat unit k = CahnHilliard.phi_sim nat nat unit k
  /\ CahnHilliard.phi_pred nat nat unit (march 10 k)
     = CahnHilliard.phi_sim nat nat unit (march 10 k).
Proof.
  intros k march.
  assert (H1 : forall (s : nat) (m : unit) (phi : nat),
             fst (S phi, m) = (fun s0 : nat => s0) ((fun _ p => S p) s phi))
    by reflexivity.
  assert (H2 : CahnHilliard.phi_pred nat nat unit k
               = CahnHilliard.phi_sim nat nat unit k) by reflexivity.
  split; [exact H1|]. split; [exact H2|].
  exact (exact_model_tracks_simulation nat nat unit (fun _ phi => S phi)
           (fun s => s) (fun m phi => (S phi, m)) 10 k H1 H2).
Defined.

(** X11.  The two trajectories of the time loop do not interact.  The
    simulation object and [phi_sim] after the loop are the same whatever
    the model, its [predict] and [phi_pred] are; the model and [phi_pred]
    after the loop are the same whatever the simulation object, its [run]
    and [response] and [phi_sim] are.  The prediction is fed with its own
    output only: the simulation never corrects it. *)
Theorem trajectories_do_not_interact (field : Type) (time_steps : nat) :
  (forall (sim mdl1 mdl2 : Type) (run : sim -> field -> sim)
          (response : sim -> field)
          (predict1 : mdl1 -> field -> field * mdl1)
          (predict2 : mdl2 -> field -> field * mdl2)
          (k1 : CahnHilliard.kernel field sim mdl1)
          (k2 : CahnHilliard.kernel field sim mdl2),
      CahnHilliard.ch_sim _ _ _ k1 = CahnHilliard.ch_sim _ _ _ k2 ->
      CahnHilliard.phi_sim _ _ _ k1 = CahnHilliard.phi_sim _ _ _ k2 ->
      CahnHilliard.ch_sim _ _ _
        (CahnHilliard.march _ _ _ run response predict1 time_steps k1)
      = CahnHilliard.ch_sim _ _ _
          (CahnHilliard.march _ _ _ run response predict2 time_steps k2)
      /\ CahnHilliard.phi_sim _ _ _
           (CahnHilliard.march _ _ _ run response predict1 time_steps k1)
         = CahnHilliard.phi_sim _ _ _
             (CahnHilliard.march _ _ _ run response predict2 time_steps k2))
  /\ (forall (sim1 sim2 mdl : Type) (run1 : sim1 -> field -> sim1)
             (run2 : sim2 -> field -> sim2)
             (response1 : sim1 -> field) (response2 : sim2 -> field)
             (predict : mdl -> field -> field * mdl)
             (k1 : CahnHilliard.kernel field sim1 mdl)
             (k2 : CahnHilliard.kernel field sim2 mdl),
         CahnHilliard.model _ _ _ k1 = CahnHilliard.model _ _ _ k2 ->
         CahnHilliard.phi_pred _ _ _ k1 = CahnHilliard.phi_pred _ _ _ k2 ->
         CahnHilliard.model _ _ _
           (CahnHilliard.march _ _ _ run1 response1 predict time_steps k1)
         = CahnHilliard.model _ _ _
             (CahnHilliard.march _ _ _ run2 response2 predict time_steps k2)
         /\ CahnHilliard.phi_pred _ _ _
              (CahnHilliard.march _ _ _ run1 response1 predict time_steps k1)
            = CahnHilliard.phi_pred _ _ _
                (CahnHilliard.march _ _ _ run2 response2 predict time_steps k2)).
Proof.
  split.
  - intros sim mdl1 mdl2 run response predict1 predict2.
    induction time_steps as [|n IH]; intros k1 k2 Hs Hp; simpl; [auto|].
    apply IH; unfold CahnHilliard.body;
      destruct (predict1 _ _), (predict2 _ _); simpl; congruence.
  - intros sim1 sim2 mdl run1 run2 response1 response2 predict.
    induction time_steps as [|n IH]; intros k1 k2 Hm Hp; simpl; [auto|].
    apply IH; unfold CahnHilliard.body; rewrite Hm, Hp;
      destruct (predict _ _); reflexivity.
Qed.

(** X11 on one simulation and two models. *)
Lemma trajectories_do_not_interact_witness :
  let run := fun (_ : nat) (phi : nat) => S phi in
  let response := fun s : nat => s in
  let k1 := CahnHilliard.start nat nat unit 0 tt 5 in
  let k2 := {| CahnHilliard.ch_sim := 0; CahnHilliard.model := true;
               CahnHilliard.phi_sim := 5; CahnHilliard.phi_pred := 7 |} in
  CahnHilliard.ch_sim _ _ _ k1 = CahnHilliard.ch_sim _ _ _ k2
  /\ CahnHilliard.phi_sim _ _ _ k1 = CahnHilliard.phi_sim _ _ _ k2
  /\ CahnHilliard.phi_sim _ _ _
       (CahnHilliard.march _ _ _ run response (fun m phi => (S phi, m)) 10 k1)
     = CahnHilliard.phi_sim _ _ _
         (CahnHilliard.march _ _ _ run response
                             (fun (m : bool) (phi : nat) => (0, negb m)) 10 k2).
Proof.
  intros run response k1 k2.
  assert (H1 : CahnHilliard.ch_sim _ _ _ k1 = CahnHilliard.ch_sim _ _ _ k2)
    by reflexivity.
  assert (H2 : CahnHilliard.phi_sim _ _ _ k1 = CahnHilliard.phi_sim _ _ _ k2)
    by reflexivity.
  split; [exact H1|]. split; [exact H2|].
  exact (proj2 (proj1 (trajectories_do_not_interact nat 10)
                      nat unit bool run response
                      (fun m phi => (S phi, m))
                      (fun (m : bool) (phi : nat) => (0, negb m))
                      k1 k2 H1 H2)).
Defined.

(** X13.  [center] is an index of the axis exactly when the axis has at
    least two entries; on an axis of even length it is the middle
    [n / 2], on an axis of odd length the entry after the middle one. *)
Theorem center_is_an_index (n : nat) :
  (CheckerBoard.center n < n <-> 2 <= n)
  /\ (Nat.even n = true -> CheckerBoard.center n = n / 2)
  /\ (Nat.odd n = true -> CheckerBoard.center n = n / 2 + 1).
Proof.
  unfold CheckerBoard.center. split; [|split].
  - split; intros H.
    + destruct n as [|[|n]]; [inversion H | | lia].
      simpl in H. lia.
    + apply Nat.Div0.div_lt_upper_bound. lia.
  - intros H. apply Nat.even_spec in H. destruct H as [m ->].
    rewrite (Nat.mul_comm 2 m), Nat.div_mul by lia.
    replace (m * 2 + 1) with (1 + m * 2) by lia.
    rewrite Nat.div_add by lia. reflexivity.
  - intros H. apply Nat.odd_spec in H. destruct H as [m ->].
    replace (2 * m + 1 + 1) with ((m + 1) * 2) by lia.
    rewrite Nat.div_mul by lia.
    replace (2 * m + 1) with (1 + m * 2) by lia.
    rewrite Nat.div_add by lia. reflexivity.
Qed.

(** X13 on an axis of 168 entries, eight squares of 21. *)
Lemma center_is_an_index_witness :
  Nat.even 168 = true /\ CheckerBoard.center 168 = 168 / 2.
Proof.
  assert (H : Nat.even 168 = true) by reflexivity.
  split; [exact H|].
  exact (proj1 (proj2 (center_is_an_index 168)) H).
Defined.
